(** * The early-stopping training loop of [notebooks/lenet.ipynb]

    The notebook builds a LeNet-5 variant with Lasagne, compiles a training
    step and a validation step with [theano.function] (cell 3), and trains it
    with [evaluate_model] (cell 4), a nested loop written in plain Python which
    implements early stopping on a validation set.

    Everything Theano, Lasagne and NumPy do is external to the notebook and is
    kept abstract here: the network parameters are a type [W], [train_fn] and
    [valid_fn] are functions over it, and NumPy's floating-point operations
    are an interface ([NumpyFloat]) of which only order properties are
    assumed.  The loop of [evaluate_model] is embedded as a transition system
    whose steps are the evaluations of the [while] test, of the [for] header
    and of one minibatch iteration. *)

From Stdlib Require Import ZArith List Bool Lia QArith Lqa.
Import ListNotations.
Local Open Scope Z_scope.

(** ** Python and NumPy primitives *)

Module Py.

(** [range(n)] for an integer [n]: empty when [n <= 0]. *)
Definition range (n : Z) : list Z := map Z.of_nat (seq 0 (Z.to_nat n)).

(** [a[lo:hi]] on a sequence (or on the first axis of an array): negative
    indices count from the end, and both bounds are clamped to the length. *)
Definition clamp (len i : Z) : Z :=
  if i <? 0 then Z.max 0 (i + len) else Z.min i len.

Definition slice {A : Type} (lo hi : Z) (a : list A) : list A :=
  let len := Z.of_nat (length a) in
  let lo' := clamp len lo in
  let hi' := clamp len hi in
  firstn (Z.to_nat (hi' - lo')) (skipn (Z.to_nat lo') a).

(** [a.shape[0]] *)
Definition shape0 {A : Type} (a : list A) : Z := Z.of_nat (length a).

(** The exceptions [evaluate_model] itself can raise. *)
Inductive exn : Set := ZeroDivisionError.

End Py.

(** The floating-point operations [evaluate_model] uses.  [flt] is [<];
    it is a strict order also in the presence of NaN, which compares false
    with everything.  The last three laws speak about values that are not
    below zero, as the misclassification rates returned by the notebook's
    [valid_fn] are: [np.inf] is one, a mean of such values is one (or NaN),
    and scaling one by the improvement threshold 0.995 does not move it
    upwards. *)
Class NumpyFloat : Type := {
  float : Type;
  np_inf : float;
  float_lit : Q -> float;
  fmul : float -> float -> float;
  flt : float -> float -> bool;
  np_mean : list float -> float;
  flt_irrefl : forall a, flt a a = false;
  flt_trans : forall a b c, flt a b = true -> flt b c = true -> flt a c = true;
  np_inf_nonneg : flt np_inf (float_lit 0) = false;
  np_mean_nonneg : forall l,
    Forall (fun x => flt x (float_lit 0) = false) l ->
    flt (np_mean l) (float_lit 0) = false;
  fmul_threshold : forall a b,
    flt b (float_lit 0) = false ->
    flt a (fmul b (float_lit (995 # 1000))) = true -> flt a b = true
}.

(** A model of the interface for running the loop on concrete numbers:
    rationals with the two infinities and NaN, exact arithmetic in place of
    rounding. *)
Module XFloat.

Inductive xfloat : Set :=
| Fin (q : Q)
| PInf
| NInf
| NaN.

Definition Qltb (p q : Q) : bool :=
  match (p ?= q)%Q with
  | Lt => true
  | _ => false
  end.

Definition xlt (a b : xfloat) : bool :=
  match a, b with
  | Fin p, Fin q => Qltb p q
  | Fin _, PInf => true
  | NInf, Fin _ => true
  | NInf, PInf => true
  | _, _ => false
  end.

Definition xneg (a : xfloat) : xfloat :=
  match a with
  | Fin q => Fin (- q)%Q
  | PInf => NInf
  | NInf => PInf
  | NaN => NaN
  end.

(** The product of an infinity with a finite factor of the given sign. *)
Definition scale_inf (inf : xfloat) (q : Q) : xfloat :=
  match (q ?= 0)%Q with
  | Gt => inf
  | Lt => xneg inf
  | Eq => NaN
  end.

Definition xmul (a b : xfloat) : xfloat :=
  match a, b with
  | NaN, _ | _, NaN => NaN
  | Fin p, Fin q => Fin (p * q)%Q
  | Fin p, inf => scale_inf inf p
  | inf, Fin q => scale_inf inf q
  | PInf, PInf | NInf, NInf => PInf
  | PInf, NInf | NInf, PInf => NInf
  end.

Definition xadd (a b : xfloat) : xfloat :=
  match a, b with
  | NaN, _ | _, NaN => NaN
  | Fin p, Fin q => Fin (p + q)%Q
  | PInf, NInf | NInf, PInf => NaN
  | PInf, _ | _, PInf => PInf
  | NInf, _ | _, NInf => NInf
  end.

(** Division by a positive count. *)
Definition xdiv (a : xfloat) (n : positive) : xfloat :=
  match a with
  | Fin q => Fin (q / inject_Z (Zpos n))%Q
  | _ => a
  end.

Definition xsum (l : list xfloat) : xfloat := fold_left xadd l (Fin 0).

(** [np.mean]: NaN on the empty list. *)
Definition xmean (l : list xfloat) : xfloat :=
  match l with
  | [] => NaN
  | _ :: _ => xdiv (xsum l) (Pos.of_nat (length l))
  end.

End XFloat.

(** ** Cell 3: the compiled functions *)

Module Cell3.

Section Cell3.

Context {NF : NumpyFloat}.
Variables W X Y : Type.

(** What the symbolic expressions of cell 3 evaluate to: the training loss,
    the parameters after the SGD updates, and the misclassification rate. *)
Variable loss : W -> list X -> list Y -> float.
Variable updates : W -> list X -> list Y -> W.
Variable test_err : W -> list X -> list Y -> float.

(** A computation that compiles graphs: it is given the number of graphs
    compiled so far and returns the new number with its result. *)
Definition theano (A : Type) : Type := nat -> A * nat.

Definition ret {A : Type} (a : A) : theano A := fun n => (a, n).

Definition bind {A B : Type} (m : theano A) (f : A -> theano B) : theano B :=
  fun n => let (a, n') := m n in f a n'.

(** [theano.function([x, y], out, updates=upd)] and
    [theano.function([x, y], out)]: each compiles one graph. *)
Definition theano_function_updates
    (out : W -> list X -> list Y -> float)
    (upd : W -> list X -> list Y -> W) :
    theano (W -> list X -> list Y -> W * float) :=
  fun n => (fun w x y => (upd w x y, out w x y), S n).

Definition theano_function (out : W -> list X -> list Y -> float) :
    theano (W -> list X -> list Y -> float) :=
  fun n => (out, S n).

(** The two [theano.function] calls of cell 3. *)
Definition cell3 :
    theano ((W -> list X -> list Y -> W * float) *
            (W -> list X -> list Y -> float)) :=
  bind (theano_function_updates loss updates) (fun train_fn =>
  bind (theano_function test_err) (fun valid_fn =>
  ret (train_fn, valid_fn))).

Definition train_fn : W -> list X -> list Y -> W * float := fst (fst (cell3 0%nat)).
Definition valid_fn : W -> list X -> list Y -> float := snd (fst (cell3 0%nat)).
Definition compiled_graphs : nat := snd (cell3 0%nat).

End Cell3.

Arguments train_fn {NF W X Y} loss updates test_err.
Arguments valid_fn {NF W X Y} loss updates test_err.
Arguments compiled_graphs {NF W X Y} loss updates test_err.

End Cell3.

(** ** The state of a run of [evaluate_model] *)

Module LeNet.

Section EvaluateModel.

Context {NF : NumpyFloat}.

(** [W]: the values of the network's shared parameters; [X], [Y]: one input
    row and one label. *)
Variables W X Y : Type.

(** [train_fn = theano.function([x, y], loss, updates=updates)] returns the
    loss and updates the parameters; [valid_fn = theano.function([x, y],
    test_err)] has no updates. *)
Variable train_fn : W -> list X -> list Y -> W * float.
Variable valid_fn : W -> list X -> list Y -> float.
Variables n_epochs batch_size : Z.

(** One element of [datasets]: the pair [(set_x, set_y)]. *)
Record dataset : Type := mkDataset { set_x : list X; set_y : list Y }.

(** [datasets[0]], [datasets[1]], [datasets[2]]. *)
Record datasets3 : Type := mkDatasets {
  train_set : dataset;
  valid_set : dataset;
  test_set : dataset
}.

(** What the run does to the outside: the lines it prints (with the values
    substituted into the format string) and the calls of [train_fn], the only
    call with a side effect.  The last [print] reports wall-clock time, whose
    value is not modelled. *)
Inductive event : Type :=
| Print_training (iter : Z)
| Call_train_fn (x : list X) (y : list Y)
| Print_validation (epoch minibatch n_train_batches : Z) (err : float)
| Print_test (epoch minibatch n_train_batches : Z) (err : float)
| Print_complete
| Print_best (validation : float) (iteration : Z) (test : float)
| Print_time.

(** Where control is: at the test of the [while], at the header of the
    [for] whose iterator yields [next] next, after the loop, or stopped by
    an exception. *)
Inductive control : Type :=
| While_head
| For_head (next : Z)
| Finished
| Raised (e : Py.exn).

(** The heap ([datasets], and the parameters [net] behind [train_fn] and
    [valid_fn]), the local variables of [evaluate_model] and the events so
    far, most recent first.  [iter] and [this_validation_loss] are unbound
    until first assigned. *)
Record state : Type := mkState {
  pc : control;
  datasets : datasets3;
  net : W;
  n_train_batches : Z;
  n_valid_batches : Z;
  n_test_batches : Z;
  patience : Z;
  validation_frequency : Z;
  best_validation_loss : float;
  best_iter : Z;
  test_score : float;
  epoch : Z;
  done_looping : bool;
  iter : option Z;
  this_validation_loss : option float;
  trace : list event
}.

Definition set_pc (s : state) (c : control) : state :=
  mkState c (datasets s) (net s) (n_train_batches s) (n_valid_batches s)
    (n_test_batches s) (patience s) (validation_frequency s)
    (best_validation_loss s) (best_iter s) (test_score s) (epoch s)
    (done_looping s) (iter s) (this_validation_loss s) (trace s).

Definition set_net (s : state) (w : W) : state :=
  mkState (pc s) (datasets s) w (n_train_batches s) (n_valid_batches s)
    (n_test_batches s) (patience s) (validation_frequency s)
    (best_validation_loss s) (best_iter s) (test_score s) (epoch s)
    (done_looping s) (iter s) (this_validation_loss s) (trace s).

Definition set_patience (s : state) (p : Z) : state :=
  mkState (pc s) (datasets s) (net s) (n_train_batches s) (n_valid_batches s)
    (n_test_batches s) p (validation_frequency s)
    (best_validation_loss s) (best_iter s) (test_score s) (epoch s)
    (done_looping s) (iter s) (this_validation_loss s) (trace s).

Definition set_best_validation_loss (s : state) (l : float) : state :=
  mkState (pc s) (datasets s) (net s) (n_train_batches s) (n_valid_batches s)
    (n_test_batches s) (patience s) (validation_frequency s)
    l (best_iter s) (test_score s) (epoch s)
    (done_looping s) (iter s) (this_validation_loss s) (trace s).

Definition set_best_iter (s : state) (i : Z) : state :=
  mkState (pc s) (datasets s) (net s) (n_train_batches s) (n_valid_batches s)
    (n_test_batches s) (patience s) (validation_frequency s)
    (best_validation_loss s) i (test_score s) (epoch s)
    (done_looping s) (iter s) (this_validation_loss s) (trace s).

Definition set_test_score (s : state) (l : float) : state :=
  mkState (pc s) (datasets s) (net s) (n_train_batches s) (n_valid_batches s)
    (n_test_batches s) (patience s) (validation_frequency s)
    (best_validation_loss s) (best_iter s) l (epoch s)
    (done_looping s) (iter s) (this_validation_loss s) (trace s).

Definition set_epoch (s : state) (e : Z) : state :=
  mkState (pc s) (datasets s) (net s) (n_train_batches s) (n_valid_batches s)
    (n_test_batches s) (patience s) (validation_frequency s)
    (best_validation_loss s) (best_iter s) (test_score s) e
    (done_looping s) (iter s) (this_validation_loss s) (trace s).

Definition set_done_looping (s : state) (b : bool) : state :=
  mkState (pc s) (datasets s) (net s) (n_train_batches s) (n_valid_batches s)
    (n_test_batches s) (patience s) (validation_frequency s)
    (best_validation_loss s) (best_iter s) (test_score s) (epoch s)
    b (iter s) (this_validation_loss s) (trace s).

Definition set_iter (s : state) (i : Z) : state :=
  mkState (pc s) (datasets s) (net s) (n_train_batches s) (n_valid_batches s)
    (n_test_batches s) (patience s) (validation_frequency s)
    (best_validation_loss s) (best_iter s) (test_score s) (epoch s)
    (done_looping s) (Some i) (this_validation_loss s) (trace s).

Definition set_this_validation_loss (s : state) (l : float) : state :=
  mkState (pc s) (datasets s) (net s) (n_train_batches s) (n_valid_batches s)
    (n_test_batches s) (patience s) (validation_frequency s)
    (best_validation_loss s) (best_iter s) (test_score s) (epoch s)
    (done_looping s) (iter s) (Some l) (trace s).

Definition emit (s : state) (e : event) : state :=
  mkState (pc s) (datasets s) (net s) (n_train_batches s) (n_valid_batches s)
    (n_test_batches s) (patience s) (validation_frequency s)
    (best_validation_loss s) (best_iter s) (test_score s) (epoch s)
    (done_looping s) (iter s) (this_validation_loss s) (e :: trace s).

(** ** [evaluate_model] *)

Definition initial_patience : Z := 10000.
Definition patience_increase : Z := 2.
Definition improvement_threshold : float := float_lit (995 # 1000).

(** [a[i * batch_size:(i + 1) * batch_size]] *)
Definition minibatch {A : Type} (i : Z) (a : list A) : list A :=
  Py.slice (i * batch_size) ((i + 1) * batch_size) a.

(** The locals on entry to the [while].  The three [//] raise
    [ZeroDivisionError] when [batch_size] is zero; no local is read after
    that. *)
Definition init (d : datasets3) (w : W) : state :=
  let n_train_batches := Py.shape0 (set_x (train_set d)) / batch_size in
  let n_valid_batches := Py.shape0 (set_x (valid_set d)) / batch_size in
  let n_test_batches := Py.shape0 (set_x (test_set d)) / batch_size in
  let patience := initial_patience in
  let validation_frequency := Z.min n_train_batches (patience / 2) in
  mkState (if batch_size =? 0 then Raised Py.ZeroDivisionError else While_head)
    d w n_train_batches n_valid_batches n_test_batches
    patience validation_frequency
    np_inf 0 (float_lit 0) 0 false None None [].

(** The iteration number of minibatch [i] of the current epoch. *)
Definition iter_of (s : state) (i : Z) : Z :=
  (epoch s - 1) * n_train_batches s + i.

(** From the top of the [for] body to the call of [train_fn]. *)
Definition train (s : state) (i : Z) : state :=
  let it := iter_of s i in
  let s := set_iter s it in
  let s := if it mod 100 =? 0 then emit s (Print_training it) else s in
  let x := minibatch i (set_x (train_set (datasets s))) in
  let y := minibatch i (set_y (train_set (datasets s))) in
  let s := emit s (Call_train_fn x y) in
  set_net s (fst (train_fn (net s) x y)).

(** The two list comprehensions over [valid_fn]. *)
Definition validation_losses (s : state) : list float :=
  map (fun i => valid_fn (net s)
                  (minibatch i (set_x (valid_set (datasets s))))
                  (minibatch i (set_y (valid_set (datasets s)))))
      (Py.range (n_valid_batches s)).

Definition test_losses (s : state) : list float :=
  map (fun i => valid_fn (net s)
                  (minibatch i (set_x (test_set (datasets s))))
                  (minibatch i (set_y (test_set (datasets s)))))
      (Py.range (n_test_batches s)).

(** The block under [if (iter + 1) % validation_frequency == 0]. *)
Definition validate (s : state) (it i : Z) : state :=
  let this := np_mean (validation_losses s) in
  let s := set_this_validation_loss s this in
  let s := emit s (Print_validation (epoch s) (i + 1) (n_train_batches s)
                     (fmul this (float_lit 100))) in
  if flt this (best_validation_loss s) then
    let s :=
      if flt this (fmul (best_validation_loss s) improvement_threshold)
      then set_patience s (Z.max (patience s) (it * patience_increase))
      else s in
    let s := set_best_validation_loss s this in
    let s := set_best_iter s it in
    let s := set_test_score s (np_mean (test_losses s)) in
    emit s (Print_test (epoch s) (i + 1) (n_train_batches s)
              (fmul (test_score s) (float_lit 100)))
  else s.

(** One iteration of the [for] with [minibatch_index = i]. *)
Definition body (s : state) (i : Z) : state :=
  let it := iter_of s i in
  let s := train s i in
  if validation_frequency s =? 0 then set_pc s (Raised Py.ZeroDivisionError)
  else
    let s := if (it + 1) mod validation_frequency s =? 0
             then validate s it i else s in
    if patience s <=? it
    then set_pc (set_done_looping s true) While_head
    else set_pc s (For_head (i + 1)).

(** The prints after the loop. *)
Definition finish (s : state) : state :=
  let s := emit s Print_complete in
  let s := emit s (Print_best (fmul (best_validation_loss s) (float_lit 100))
                     (best_iter s + 1)
                     (fmul (test_score s) (float_lit 100))) in
  set_pc (emit s Print_time) Finished.

Definition step (s : state) : state :=
  match pc s with
  | While_head =>
      if (epoch s <? n_epochs) && negb (done_looping s)
      then set_pc (set_epoch s (epoch s + 1)) (For_head 0)
      else finish s
  | For_head i =>
      if i <? n_train_batches s then body s i else set_pc s While_head
  | Finished => s
  | Raised _ => s
  end.

(** [k] steps from [s], and the state after [k] steps of
    [evaluate_model(train_fn, valid_fn, d, n_epochs, batch_size)] started with
    parameters [w]. *)
Fixpoint steps (k : nat) (s : state) : state :=
  match k with
  | O => s
  | S k' => step (steps k' s)
  end.

Definition run (d : datasets3) (w : W) (k : nat) : state :=
  steps k (init d w).

Definition halted (s : state) : bool :=
  match pc s with
  | Finished | Raised _ => true
  | _ => false
  end.

Fixpoint exec (fuel : nat) (s : state) : option state :=
  if halted s then Some s
  else match fuel with
       | O => None
       | S fuel' => exec fuel' (step s)
       end.

(** The call itself: the final state, if [fuel] steps are enough. *)
Definition evaluate_model (fuel : nat) (d : datasets3) (w : W) : option state :=
  exec fuel (init d w).


(** ** Observing a run *)

(** The iteration the next step trains on, if the next step is an iteration
    of the [for] body. *)
Definition training (s : state) : option Z :=
  match pc s with
  | For_head i => if i <? n_train_batches s then Some (iter_of s i) else None
  | _ => None
  end.

(** The iteration after which the next step checks the validation set, if
    it does. *)
Definition checking (s : state) : option Z :=
  match training s with
  | Some it =>
      if negb (validation_frequency s =? 0)
         && ((it + 1) mod validation_frequency s =? 0)
      then Some it else None
  | None => None
  end.

Definition is_some {A : Type} (o : option A) : bool :=
  match o with Some _ => true | None => false end.

(** Calls of [train_fn] and validation checks recorded in a trace. *)
Definition is_train_call (e : event) : bool :=
  match e with Call_train_fn _ _ => true | _ => false end.

Definition is_validation (e : event) : bool :=
  match e with Print_validation _ _ _ _ => true | _ => false end.

Definition train_calls (s : state) : Z :=
  Z.of_nat (length (filter is_train_call (trace s))).

Definition validations (s : state) : Z :=
  Z.of_nat (length (filter is_validation (trace s))).

(** The number of complete minibatches of a split. *)
Definition n_batches (d : dataset) : Z := Py.shape0 (set_x d) / batch_size.

(** What holds of the locals at every point of a run on [d]. *)
Definition Inv (d : datasets3) (s : state) : Prop :=
  datasets s = d /\
  n_train_batches s = n_batches (train_set d) /\
  n_valid_batches s = n_batches (valid_set d) /\
  n_test_batches s = n_batches (test_set d) /\
  validation_frequency s = Z.min (n_train_batches s) 5000 /\
  initial_patience <= patience s /\
  0 <= epoch s <= Z.max 0 n_epochs /\
  match pc s with
  | For_head i => 0 <= i /\ 1 <= epoch s
  | Raised _ => batch_size = 0
  | _ => True
  end.

(** How the loop can have been left. *)
Definition Exit (s : state) : Prop :=
  (pc s = Finished -> n_epochs <= epoch s \/ done_looping s = true) /\
  (done_looping s = true ->
     (pc s = While_head \/ pc s = Finished) /\
     exists it, iter s = Some it /\ patience s <= it).

(** Python's [min] over [b] followed by [ls]: the first of the smallest. *)
Definition py_min (b : float) (ls : list float) : float :=
  fold_left (fun m l => if flt l m then l else m) ls b.

(** The validation loss computed by step [j] of the run, if that step
    checks the validation set. *)
Definition loss_at (d : datasets3) (w : W) (j : nat) : list float :=
  match checking (run d w j), this_validation_loss (run d w (S j)) with
  | Some _, Some l => [l]
  | _, _ => []
  end.

(** All validation losses computed in the first [k] steps, oldest first. *)
Definition losses_so_far (d : datasets3) (w : W) (k : nat) : list float :=
  flat_map (loss_at d w) (seq 0 k).

(** Step [j] of the run strictly lowers [best_validation_loss]. *)
Definition improves (d : datasets3) (w : W) (j : nat) : bool :=
  flt (best_validation_loss (run d w (S j))) (best_validation_loss (run d w j)).

(** The reading of "best" that takes it by test error: no model evaluated
    at a validation check in the first [k] steps has a test error below the
    reported [test_score]. *)
Definition best_by_test_error (d : datasets3) (w : W) (k : nat) : Prop :=
  forall j, (j < k)%nat -> checking (run d w j) <> None ->
    flt (np_mean (test_losses (run d w (S j)))) (test_score (run d w k)) = false.

(** The same by validation error, against [best_validation_loss]. *)
Definition best_by_validation_error (d : datasets3) (w : W) (k : nat) : Prop :=
  forall j, (j < k)%nat -> checking (run d w j) <> None ->
    flt (np_mean (validation_losses (run d w (S j))))
        (best_validation_loss (run d w k)) = false.

(** Minibatch number [i] of an array: [batch_size] consecutive rows from row
    [i * batch_size] on (fewer if the array ends before). *)
Definition chunk {A : Type} (i : nat) (a : list A) : list A :=
  firstn (Z.to_nat batch_size) (skipn (i * Z.to_nat batch_size) a).

(** The complete minibatches of a split, in order. *)
Definition minibatches (d : dataset) : list (list X * list Y) :=
  map (fun i => (chunk i (set_x d), chunk i (set_y d)))
      (seq 0 (length (set_x d) / Z.to_nat batch_size)).

(** The mean of [valid_fn] over the complete minibatches of a split, for the
    parameters [w]. *)
Definition error_on (w : W) (d : dataset) : float :=
  np_mean (map (fun b => valid_fn w (fst b) (snd b)) (minibatches d)).

(** The validation checks of epoch [e] recorded in the trace. *)
Definition is_validation_of (e : Z) (ev : event) : bool :=
  match ev with
  | Print_validation e' _ _ _ => e' =? e
  | _ => false
  end.

Definition validations_in_epoch (e : Z) (s : state) : Z :=
  Z.of_nat (length (filter (is_validation_of e) (trace s))).

(** The last iteration trained on, -1 before the first. *)
Definition last_iter (s : state) : Z :=
  match iter s with
  | Some it => it
  | None => -1
  end.

(** Epoch [e] has trained on its last minibatch. *)
Definition epoch_completed (s : state) (e : Z) : bool :=
  ((1 <=? e) && (e <? epoch s))
  || ((1 <=? e) && (e =? epoch s)
      && (last_iter s =? e * n_train_batches s - 1)).

(** The reading of "once per epoch" that counts every epoch entered. *)
Definition validates_once_per_epoch (s : state) : Prop :=
  forall e, 1 <= e <= epoch s -> validations_in_epoch e s = 1.

(** The schedule of validation checks when [1 <= n_train_batches <= 5000]. *)
Definition Sched (s : state) : Prop :=
  match pc s with
  | For_head i =>
      i <= n_train_batches s /\
      last_iter s = (epoch s - 1) * n_train_batches s + i - 1 /\
      done_looping s = false
  | Raised _ => True
  | _ => done_looping s = false ->
         last_iter s = epoch s * n_train_batches s - 1
  end /\
  forall e, validations_in_epoch e s = if epoch_completed s e then 1 else 0.

(** The count of training steps against the position in the loop. *)
Definition Calls (s : state) : Prop :=
  let m := Z.max 0 (n_train_batches s) in
  match pc s with
  | For_head i =>
      i <= m /\ train_calls s = (epoch s - 1) * m + i /\
      train_calls s <= patience s /\ done_looping s = false
  | Raised _ =>
      train_calls s <= epoch s * m /\ train_calls s <= patience s + 1
  | _ =>
      if done_looping s
      then train_calls s <= epoch s * m /\ train_calls s <= patience s + 1
      else train_calls s = epoch s * m /\ train_calls s <= patience s
  end.

(** The same state over other datasets. *)
Definition with_datasets (s : state) (d : datasets3) : state :=
  mkState (pc s) d (net s) (n_train_batches s) (n_valid_batches s)
    (n_test_batches s) (patience s) (validation_frequency s)
    (best_validation_loss s) (best_iter s) (test_score s) (epoch s)
    (done_looping s) (iter s) (this_validation_loss s) (trace s).

(** Two splits with as many rows and the same complete minibatches: they
    differ at most in the trailing rows that do not fill a minibatch. *)
Definition agree (a b : dataset) : Prop :=
  let m := Z.to_nat (n_batches a * batch_size) in
  length (set_x a) = length (set_x b) /\
  firstn m (set_x a) = firstn m (set_x b) /\
  firstn m (set_y a) = firstn m (set_y b).

Definition agree3 (d d' : datasets3) : Prop :=
  agree (train_set d) (train_set d') /\
  agree (valid_set d) (valid_set d') /\
  agree (test_set d) (test_set d').

(** [valid_fn] over the complete minibatches of a split, as both list
    comprehensions of [evaluate_model] compute it. *)
Definition losses (w : W) (a : dataset) : list float :=
  map (fun i => valid_fn w (minibatch i (set_x a)) (minibatch i (set_y a)))
      (Py.range (n_batches a)).

(** The minibatches passed to [train_fn] and the iterations announced by
    ['training @ iter = %i'], as recorded in a trace (most recent first), and
    in the order of the run. *)
Definition call_batches (tr : list event) : list (list X * list Y) :=
  flat_map (fun e => match e with
                     | Call_train_fn x y => [(x, y)]
                     | _ => []
                     end) tr.

Definition train_batches (s : state) : list (list X * list Y) :=
  rev (call_batches (trace s)).

Definition announced (tr : list event) : list Z :=
  flat_map (fun e => match e with
                     | Print_training it => [it]
                     | _ => []
                     end) tr.

Definition training_prints (s : state) : list Z := rev (announced (trace s)).

(** The three prints after the loop. *)
Definition is_summary (e : event) : bool :=
  match e with
  | Print_complete | Print_best _ _ _ | Print_time => true
  | _ => false
  end.

(** One call of [train_fn] on a minibatch, for its effect on the
    parameters. *)
Definition train_step (w : W) (b : list X * list Y) : W :=
  fst (train_fn w (fst b) (snd b)).

(** The minibatch of training step number [j]: the training set is swept
    in order, epoch after epoch. *)
Definition nth_batch (d : datasets3) (j : Z) : list X * list Y :=
  let n := n_batches (train_set d) in
  (minibatch (j mod n) (set_x (train_set d)),
   minibatch (j mod n) (set_y (train_set d))).

(** The parameters after [n] training steps from [w]. *)
Definition params_after (d : datasets3) (w : W) (n : Z) : W :=
  fold_left train_step (map (nth_batch d) (Py.range n)) w.

(** A progress line ['epoch %i, minibatch %i/%i, ...'] that names an
    existing minibatch of an epoch already entered, at which a validation
    check is due; [n], [e] and [v] are [n_train_batches], [epoch] and
    [validation_frequency]. *)
Definition line_ok (n e v : Z) (ev : event) : Prop :=
  match ev with
  | Print_validation ep m n' _ | Print_test ep m n' _ =>
      n' = n /\ 1 <= m <= n /\ 1 <= ep <= e /\ ((ep - 1) * n + m) mod v = 0
  | _ => True
  end.

(** Evaluations of the test set recorded in a trace. *)
Definition is_test (e : event) : bool :=
  match e with Print_test _ _ _ _ => true | _ => false end.

Definition tests (s : state) : Z :=
  Z.of_nat (length (filter is_test (trace s))).

(** ** Proof tools *)

Ltac simpl_state :=
  cbn [pc datasets net n_train_batches n_valid_batches n_test_batches
       patience validation_frequency best_validation_loss best_iter
       test_score epoch done_looping iter this_validation_loss trace
       set_pc set_net set_patience set_best_validation_loss set_best_iter
       set_test_score set_epoch set_done_looping set_iter
       set_this_validation_loss emit] in *.

(** [train] and [validate] in closed form. *)
Lemma train_eq (s : state) (i : Z) :
  train s i =
  mkState (pc s) (datasets s)
    (fst (train_fn (net s) (minibatch i (set_x (train_set (datasets s))))
                           (minibatch i (set_y (train_set (datasets s))))))
    (n_train_batches s) (n_valid_batches s) (n_test_batches s)
    (patience s) (validation_frequency s)
    (best_validation_loss s) (best_iter s) (test_score s) (epoch s)
    (done_looping s) (Some (iter_of s i)) (this_validation_loss s)
    (Call_train_fn (minibatch i (set_x (train_set (datasets s))))
                   (minibatch i (set_y (train_set (datasets s))))
     :: if iter_of s i mod 100 =? 0
        then Print_training (iter_of s i) :: trace s else trace s).
Proof.
  unfold train. destruct (iter_of s i mod 100 =? 0); reflexivity.
Qed.

Lemma validate_eq (s : state) (it i : Z) :
  validate s it i =
  if flt (np_mean (validation_losses s)) (best_validation_loss s)
  then
    mkState (pc s) (datasets s) (net s)
      (n_train_batches s) (n_valid_batches s) (n_test_batches s)
      (if flt (np_mean (validation_losses s))
              (fmul (best_validation_loss s) improvement_threshold)
       then Z.max (patience s) (it * patience_increase) else patience s)
      (validation_frequency s)
      (np_mean (validation_losses s)) it (np_mean (test_losses s)) (epoch s)
      (done_looping s) (iter s) (Some (np_mean (validation_losses s)))
      (Print_test (epoch s) (i + 1) (n_train_batches s)
         (fmul (np_mean (test_losses s)) (float_lit 100))
       :: Print_validation (epoch s) (i + 1) (n_train_batches s)
            (fmul (np_mean (validation_losses s)) (float_lit 100))
       :: trace s)
  else
    mkState (pc s) (datasets s) (net s)
      (n_train_batches s) (n_valid_batches s) (n_test_batches s)
      (patience s) (validation_frequency s)
      (best_validation_loss s) (best_iter s) (test_score s) (epoch s)
      (done_looping s) (iter s) (Some (np_mean (validation_losses s)))
      (Print_validation (epoch s) (i + 1) (n_train_batches s)
         (fmul (np_mean (validation_losses s)) (float_lit 100))
       :: trace s).
Proof.
  unfold validate. cbn zeta. simpl_state.
  destruct (flt (np_mean (validation_losses s)) (best_validation_loss s));
    [|reflexivity].
  destruct (flt (np_mean (validation_losses s))
                (fmul (best_validation_loss s) improvement_threshold));
    reflexivity.
Qed.

Ltac simpl_with_datasets :=
  cbn [with_datasets
       pc datasets net n_train_batches n_valid_batches n_test_batches
       patience validation_frequency best_validation_loss best_iter
       test_score epoch done_looping iter this_validation_loss trace
       set_pc set_net set_patience set_best_validation_loss set_best_iter
       set_test_score set_epoch set_done_looping set_iter
       set_this_validation_loss emit] in *.

Ltac case_if :=
  match goal with
  | |- context [if ?b then _ else _] => destruct b eqn:?
  end.

Ltac step_cases :=
  unfold step, finish, body in *; rewrite ?train_eq in *; simpl_state;
  repeat (first [rewrite validate_eq in * | case_if]; simpl_state).

Lemma run_S (d : datasets3) (w : W) (k : nat) :
  run d w (S k) = step (run d w k).
Proof. reflexivity. Qed.

Lemma run_invariant (P : state -> Prop) (d : datasets3) (w : W) :
  P (init d w) -> (forall s, P s -> P (step s)) -> forall k, P (run d w k).
Proof.
  intros H0 HS k; induction k as [|k IH]; [exact H0 | rewrite run_S; auto].
Qed.

(** The locals assigned once, before the loop, and the datasets are the
    same after every step. *)
Lemma step_frame (s : state) :
  datasets (step s) = datasets s /\
  n_train_batches (step s) = n_train_batches s /\
  n_valid_batches (step s) = n_valid_batches s /\
  n_test_batches (step s) = n_test_batches s /\
  validation_frequency (step s) = validation_frequency s.
Proof.
  destruct (pc s) eqn:Hpc; step_cases; rewrite Hpc; step_cases; auto.
Qed.


(** What a step that checks the validation set leaves in the locals. *)
Lemma step_checking (s : state) (it : Z) :
  checking s = Some it ->
  let s' := step s in
  let this := np_mean (validation_losses s') in
  this_validation_loss s' = Some this /\
  if flt this (best_validation_loss s)
  then best_validation_loss s' = this /\
       best_iter s' = it /\
       test_score s' = np_mean (test_losses s') /\
       patience s' =
         (if flt this (fmul (best_validation_loss s) improvement_threshold)
          then Z.max (patience s) (it * 2) else patience s)
  else best_validation_loss s' = best_validation_loss s /\
       best_iter s' = best_iter s /\
       test_score s' = test_score s /\
       patience s' = patience s.
Proof.
  unfold checking, training.
  destruct (pc s) as [|i| |e] eqn:Hpc; try discriminate.
  destruct (i <? n_train_batches s) eqn:Hi; try discriminate.
  destruct (validation_frequency s =? 0) eqn:Hvf; cbn [negb andb];
    try discriminate.
  destruct ((iter_of s i + 1) mod validation_frequency s =? 0) eqn:Hm;
    try discriminate.
  intros [= <-]. cbn zeta.
  unfold step. rewrite Hpc, Hi. unfold body. rewrite train_eq. simpl_state.
  rewrite Hvf, Hm, validate_eq. simpl_state.
  unfold validation_losses, test_losses, patience_increase.
  repeat (case_if; simpl_state); try congruence; auto.
Qed.

Lemma step_not_checking (s : state) :
  checking s = None ->
  this_validation_loss (step s) = this_validation_loss s /\
  best_validation_loss (step s) = best_validation_loss s /\
  best_iter (step s) = best_iter s /\
  test_score (step s) = test_score s /\
  patience (step s) = patience s.
Proof.
  unfold checking, training, step.
  destruct (pc s) as [|i| |e] eqn:Hpc; try (intros _; step_cases; auto; fail).
  destruct (i <? n_train_batches s); [|intros _; step_cases; auto; fail].
  unfold body. rewrite train_eq. simpl_state.
  destruct (validation_frequency s =? 0) eqn:Hvf; cbn [negb andb].
  - intros _. simpl_state. auto.
  - destruct ((iter_of s i + 1) mod validation_frequency s =? 0) eqn:Hm;
      try discriminate.
    intros _. step_cases; auto.
Qed.

Lemma Inv_init (d : datasets3) (w : W) : Inv d (init d w).
Proof.
  unfold Inv, init, n_batches, initial_patience; simpl_state.
  change (10000 / 2) with 5000.
  repeat split; try lia.
  destruct (batch_size =? 0) eqn:E; [apply Z.eqb_eq in E; exact E | exact I].
Qed.

Lemma Inv_step (d : datasets3) (s : state) : Inv d s -> Inv d (step s).
Proof.
  unfold Inv. intros (Hd & Ht & Hv & Hs & Hf & Hp & He & Hc).
  destruct (step_frame s) as (-> & -> & -> & -> & ->).
  repeat (split; [assumption|]).
  unfold initial_patience, patience_increase in *.
  unfold step. destruct (pc s) as [|i| |e] eqn:Hpc.
  - step_cases; lia.
  - step_cases; lia.
  - rewrite Hpc. auto.
  - rewrite Hpc. auto.
Qed.

Lemma Inv_run (d : datasets3) (w : W) (k : nat) : Inv d (run d w k).
Proof.
  apply run_invariant; [apply Inv_init | apply Inv_step].
Qed.

(** *** Termination *)

Lemma step_halted (s : state) : halted s = true -> step s = s.
Proof. unfold halted, step. destruct (pc s); auto; discriminate. Qed.

Lemma steps_halted (k : nat) (s : state) :
  halted s = true -> steps k s = s.
Proof.
  intros H. induction k as [|k IH]; [reflexivity|].
  cbn [steps]. rewrite IH. apply step_halted, H.
Qed.

Lemma steps_S (k : nat) (s : state) :
  steps (S k) s = steps k (step s).
Proof.
  induction k as [|k IH]; [reflexivity|].
  cbn [steps] in *. rewrite IH. reflexivity.
Qed.

Lemma steps_add (a b : nat) (s : state) :
  steps (a + b) s = steps a (steps b s).
Proof.
  induction a as [|a IH]; [reflexivity|].
  cbn [steps Nat.add]. rewrite IH. reflexivity.
Qed.

Lemma Inv_steps (d : datasets3) (s : state) (k : nat) :
  Inv d s -> Inv d (steps k s).
Proof.
  intros H. induction k as [|k IH]; [exact H | apply Inv_step, IH].
Qed.

Lemma exec_halts (fuel : nat) : forall (s : state) (k : nat),
  (k <= fuel)%nat -> halted (steps k s) = true ->
  exec fuel s = Some (steps k s).
Proof.
  induction fuel as [|fuel IH]; intros s k Hk Hh.
  - assert (k = 0%nat) as -> by lia. cbn in *. rewrite Hh. reflexivity.
  - cbn [exec]. destruct (halted s) eqn:Hs.
    + rewrite steps_halted by exact Hs. reflexivity.
    + destruct k as [|k]; [cbn in Hh; congruence|].
      rewrite steps_S in *. apply IH; [lia | exact Hh].
Qed.

Lemma exec_Some (fuel : nat) : forall (s s' : state),
  exec fuel s = Some s' ->
  halted s' = true /\ exists k, s' = steps k s.
Proof.
  induction fuel as [|fuel IH]; intros s s'; cbn [exec].
  - destruct (halted s) eqn:Hs; [|discriminate].
    intros [= <-]. split; [exact Hs | exists 0%nat; reflexivity].
  - destruct (halted s) eqn:Hs.
    + intros [= <-]. split; [exact Hs | exists 0%nat; reflexivity].
    + intros H. apply IH in H as (Hh & k & ->).
      split; [exact Hh | exists (S k); apply eq_sym, steps_S].
Qed.

(** An iteration of the [for] body goes on with the next minibatch or
    breaks; it raises only if [validation_frequency] is zero. *)
Lemma body_pc (s : state) (i : Z) :
  epoch (body s i) = epoch s /\
  (pc (body s i) = Raised Py.ZeroDivisionError \/
   pc (body s i) = While_head \/
   pc (body s i) = For_head (i + 1)).
Proof. step_cases; auto. Qed.

Lemma for_terminates (d : datasets3) (n : nat) : forall (s : state) (i : Z),
  batch_size <> 0 -> Inv d s -> pc s = For_head i ->
  n_train_batches s - i <= Z.of_nat n ->
  exists k, pc (steps k s) = While_head /\
            epoch (steps k s) = epoch s.
Proof.
  induction n as [|n IH]; intros s i Hb HI Hpc Hn.
  - exists 1%nat. cbn [steps]. unfold step. rewrite Hpc.
    replace (i <? n_train_batches s) with false by lia.
    split; reflexivity.
  - destruct (i <? n_train_batches s) eqn:Hi.
    + assert (Hs : step s = body s i) by (unfold step; rewrite Hpc, Hi; reflexivity).
      pose proof (Inv_step d s HI) as HI'. rewrite Hs in HI'.
      destruct (body_pc s i) as (He & [Hr | [Hw | Hf]]).
      * exfalso. destruct HI' as (_ & _ & _ & _ & _ & _ & _ & Hc).
        rewrite Hr in Hc. contradiction.
      * exists 1%nat. cbn [steps]. rewrite Hs. auto.
      * destruct (IH (body s i) (i + 1)) as (k & Hk & Hek); auto.
        { destruct (step_frame s) as (_ & Ht & _). rewrite Hs in Ht. lia. }
        exists (S k). rewrite steps_S, Hs. split; [exact Hk | congruence].
    + exists 1%nat. cbn [steps]. unfold step. rewrite Hpc, Hi.
      split; reflexivity.
Qed.

Lemma while_terminates (d : datasets3) (n : nat) : forall (s : state),
  batch_size <> 0 -> Inv d s -> pc s = While_head ->
  n_epochs - epoch s <= Z.of_nat n ->
  exists k, pc (steps k s) = Finished.
Proof.
  induction n as [|n IH]; intros s Hb HI Hpc Hn.
  - exists 1%nat. cbn [steps]. unfold step. rewrite Hpc.
    replace (epoch s <? n_epochs) with false by lia. reflexivity.
  - destruct ((epoch s <? n_epochs) && negb (done_looping s)) eqn:Hc.
    + set (s1 := set_pc (set_epoch s (epoch s + 1)) (For_head 0)).
      assert (Hs : step s = s1) by (unfold step; rewrite Hpc, Hc; reflexivity).
      assert (HI1 : Inv d s1) by (rewrite <- Hs; apply Inv_step, HI).
      destruct (for_terminates d (Z.to_nat (n_train_batches s1)) s1 0)
        as (k1 & Hk1 & He1); auto; [lia|].
      destruct (IH (steps k1 s1)) as (k2 & Hk2); auto.
      { apply Inv_steps, HI1. }
      { rewrite He1. subst s1. simpl_state. lia. }
      exists (k2 + k1 + 1)%nat.
      rewrite !steps_add. cbn [steps]. rewrite Hs. exact Hk2.
    + exists 1%nat. cbn [steps]. unfold step. rewrite Hpc, Hc. reflexivity.
Qed.

(** The loop is left after finitely many steps unless the first [//] has
    raised. *)
Lemma terminates (d : datasets3) (w : W) :
  batch_size <> 0 -> exists k, pc (run d w k) = Finished.
Proof.
  intros Hb.
  apply (while_terminates d (Z.to_nat n_epochs) (init d w)).
  - exact Hb.
  - apply Inv_init.
  - unfold init; simpl_state.
    replace (batch_size =? 0) with false by lia. reflexivity.
  - unfold init; simpl_state. lia.
Qed.

(** What [evaluate_model] returns is a point of the run. *)
Lemma evaluate_model_run (fuel : nat) (d : datasets3) (w : W) (s : state) :
  evaluate_model fuel d w = Some s ->
  exists k, s = run d w k /\ halted s = true.
Proof.
  intros H. apply exec_Some in H as (Hh & k & ->).
  exists k. split; [reflexivity | exact Hh].
Qed.

Lemma Exit_init (d : datasets3) (w : W) : Exit (init d w).
Proof.
  unfold Exit, init; simpl_state. split; [|discriminate].
  destruct (batch_size =? 0); discriminate.
Qed.

Lemma Exit_step (s : state) : Exit s -> Exit (step s).
Proof.
  unfold Exit. intros (Hf & Hd).
  unfold step. destruct (pc s) as [|i| |e] eqn:Hpc.
  - destruct ((epoch s <? n_epochs) && negb (done_looping s)) eqn:Hc.
    + apply andb_true_iff in Hc as (_ & Hc). apply negb_true_iff in Hc.
      simpl_state. split; [discriminate | congruence].
    + unfold finish; simpl_state. split.
      * intros _. apply andb_false_iff in Hc as [Hc | Hc]; [left; lia|].
        right. apply negb_false_iff, Hc.
      * intros H. destruct (Hd H) as (_ & it & Hit & Hp).
        split; [right; reflexivity | exists it; auto].
  - destruct (done_looping s) eqn:Hdl.
    { destruct Hd as ([H | H] & _); [reflexivity | congruence | congruence]. }
    step_cases; (split; [discriminate|]); intros Hx; try congruence.
    all: split; [left; reflexivity|].
    all: eexists; (split; [reflexivity | lia]).
  - rewrite Hpc. auto.
  - rewrite Hpc. split; [discriminate | exact Hd].
Qed.

Lemma Exit_run (d : datasets3) (w : W) (k : nat) : Exit (run d w k).
Proof.
  apply run_invariant; [apply Exit_init | apply Exit_step].
Qed.

(** A minibatch iteration that ends with [patience <= iter] breaks the
    [for] with [done_looping] set, and the [while] test that follows leaves
    the loop. *)
Lemma break_exits (d : datasets3) (s : state) (it : Z) :
  Inv d s -> batch_size <> 0 ->
  training s = Some it -> patience (step s) <= it ->
  pc (step s) = While_head /\ done_looping (step s) = true /\
  pc (step (step s)) = Finished.
Proof.
  intros HI Hb Ht Hp.
  assert (H1 : pc (step s) = While_head /\ done_looping (step s) = true).
  { pose proof (Inv_step d s HI) as HI'.
    destruct HI' as (_ & _ & _ & _ & _ & _ & _ & Hc).
    revert Ht Hp Hc. unfold training, step.
    destruct (pc s) as [|i| |e]; try discriminate.
    destruct (i <? n_train_batches s); try discriminate.
    intros [= <-]. step_cases; intros; try lia; auto. }
  destruct H1 as (H1 & H2). repeat split; auto.
  unfold step at 1. rewrite H1, H2, andb_false_r. reflexivity.
Qed.


(** C2.  For every datasets triple, [n_epochs >= 0] and [batch_size >= 1],
    [evaluate_model] terminates: with enough fuel it returns a final state
    that has left the loop normally, either with [epoch = n_epochs] or with
    [done_looping] set after an iteration that ended with [patience <= iter];
    and whenever a minibatch iteration ends with [patience <= iter], the
    [for] is broken with [done_looping] set and the next test of the [while]
    leaves the loop. *)
Theorem evaluate_model_terminates (d : datasets3) (w : W) :
  0 <= n_epochs -> 1 <= batch_size ->
  (exists fuel s,
     (forall fuel', (fuel <= fuel')%nat -> evaluate_model fuel' d w = Some s) /\
     pc s = Finished /\
     (epoch s = n_epochs \/
      done_looping s = true /\ exists it, iter s = Some it /\ patience s <= it)) /\
  (forall j it,
     training (run d w j) = Some it -> patience (run d w (S j)) <= it ->
     pc (run d w (S j)) = While_head /\
     done_looping (run d w (S j)) = true /\
     pc (run d w (S (S j))) = Finished).
Proof.
  intros Hn Hb. split.
  - destruct (terminates d w ltac:(lia)) as (k & Hk).
    exists k, (run d w k). split; [|split].
    + intros fuel' Hf. apply exec_halts; [exact Hf|].
      fold (run d w k). unfold halted. rewrite Hk. reflexivity.
    + exact Hk.
    + destruct (Exit_run d w k) as (Hfin & Hdone).
      destruct (Hfin Hk) as [He | Hdl].
      * left. destruct (Inv_run d w k) as (_ & _ & _ & _ & _ & _ & Hep & _).
        lia.
      * right. split; [exact Hdl | apply Hdone, Hdl].
  - intros j it Ht Hp. rewrite !run_S in *.
    apply (break_exits d _ it); auto; [apply Inv_run | lia].
Qed.

(** *** The heap *)

Lemma step_net (s : state) :
  net (step s) = net s \/
  exists x y, net (step s) = fst (train_fn (net s) x y).
Proof.
  unfold step. destruct (pc s); [left; step_cases; reflexivity | | left; reflexivity ..].
  destruct (_ <? _); [|left; reflexivity].
  right. do 2 eexists. step_cases; reflexivity.
Qed.

(** C10.  [evaluate_model] never modifies its [datasets] argument: the three
    splits are the same at every point of a run and in the state it returns;
    of the heap only the network parameters change, and only by a call of
    [train_fn]. *)
Theorem datasets_unchanged (d : datasets3) (w : W) :
  (forall k, datasets (run d w k) = d) /\
  (forall fuel s, evaluate_model fuel d w = Some s -> datasets s = d) /\
  (forall k, net (run d w (S k)) = net (run d w k) \/
             exists x y, net (run d w (S k)) = fst (train_fn (net (run d w k)) x y)).
Proof.
  split; [|split].
  - intros k. apply (Inv_run d w k).
  - intros fuel s H. apply exec_Some in H as (_ & k & ->).
    apply (Inv_run d w k).
  - intros k. rewrite run_S. apply step_net.
Qed.


(** *** Patience *)

Lemma step_patience_le (s : state) : patience s <= patience (step s).
Proof.
  destruct (checking s) as [it|] eqn:Hc.
  - destruct (step_checking s it Hc) as (_ & H).
    destruct (flt _ (best_validation_loss s)).
    + destruct H as (_ & _ & _ & ->). destruct (flt _ _); lia.
    + destruct H as (_ & _ & _ & ->). lia.
  - destruct (step_not_checking s Hc) as (_ & _ & _ & _ & ->). lia.
Qed.

Lemma run_patience_le (d : datasets3) (w : W) (n m : nat) :
  (n <= m)%nat -> patience (run d w n) <= patience (run d w m).
Proof.
  induction 1 as [|m _ IH]; [lia|].
  rewrite run_S. pose proof (step_patience_le (run d w m)). lia.
Qed.

Lemma validation_losses_nonneg (s : state) :
  (forall w x y, flt (valid_fn w x y) (float_lit 0) = false) ->
  flt (np_mean (validation_losses s)) (float_lit 0) = false.
Proof.
  intros H. apply np_mean_nonneg. unfold validation_losses.
  apply Forall_map, Forall_forall. intros i _. apply H.
Qed.

Lemma best_validation_loss_nonneg (d : datasets3) (w : W) (k : nat) :
  (forall w x y, flt (valid_fn w x y) (float_lit 0) = false) ->
  flt (best_validation_loss (run d w k)) (float_lit 0) = false.
Proof.
  intros H. apply run_invariant with (P := fun s =>
    flt (best_validation_loss s) (float_lit 0) = false).
  - apply np_inf_nonneg.
  - intros s Hs. destruct (checking s) as [it|] eqn:Hc.
    + destruct (step_checking s it Hc) as (_ & H').
      destruct (flt _ (best_validation_loss s)).
      * destruct H' as (-> & _). apply validation_losses_nonneg, H.
      * destruct H' as (-> & _). exact Hs.
    + destruct (step_not_checking s Hc) as (_ & -> & _). exact Hs.
Qed.

(** C4.  [patience] starts at 10000 and never decreases between two points
    of a run.  A step changes it only by the assignment [patience =
    max(patience, iter * 2)], at a validation check, under the two nested
    tests of the code; with a [valid_fn] that returns error rates (values not
    below zero) the outer test is implied, and the assignment is executed
    exactly at the validation checks where [this_validation_loss <
    best_validation_loss * 0.995]. *)
Theorem patience_monotone (d : datasets3) (w : W) :
  patience (run d w 0) = 10000 /\
  (forall n m, (n <= m)%nat -> patience (run d w n) <= patience (run d w m)) /\
  (forall k,
     patience (run d w (S k)) =
       match checking (run d w k) with
       | Some it =>
           if flt (np_mean (validation_losses (run d w (S k))))
                  (best_validation_loss (run d w k))
              && flt (np_mean (validation_losses (run d w (S k))))
                     (fmul (best_validation_loss (run d w k))
                           improvement_threshold)
           then Z.max (patience (run d w k)) (it * 2)
           else patience (run d w k)
       | None => patience (run d w k)
       end) /\
  ((forall w x y, flt (valid_fn w x y) (float_lit 0) = false) ->
   forall k,
     patience (run d w (S k)) =
       match checking (run d w k) with
       | Some it =>
           if flt (np_mean (validation_losses (run d w (S k))))
                  (fmul (best_validation_loss (run d w k)) improvement_threshold)
           then Z.max (patience (run d w k)) (it * 2)
           else patience (run d w k)
       | None => patience (run d w k)
       end).
Proof.
  assert (Hgen : forall k,
     patience (run d w (S k)) =
       match checking (run d w k) with
       | Some it =>
           if flt (np_mean (validation_losses (run d w (S k))))
                  (best_validation_loss (run d w k))
              && flt (np_mean (validation_losses (run d w (S k))))
                     (fmul (best_validation_loss (run d w k))
                           improvement_threshold)
           then Z.max (patience (run d w k)) (it * 2)
           else patience (run d w k)
       | None => patience (run d w k)
       end).
  { intros k. rewrite run_S.
    destruct (checking (run d w k)) as [it|] eqn:Hc.
    - destruct (step_checking _ it Hc) as (_ & H).
      destruct (flt _ (best_validation_loss (run d w k)));
        destruct H as (_ & _ & _ & ->); reflexivity.
    - apply (step_not_checking _ Hc). }
  split; [reflexivity | split; [apply run_patience_le | split; [exact Hgen|]]].
  intros Hv k. rewrite Hgen.
  destruct (checking (run d w k)) as [it|]; [|reflexivity].
  pose proof (best_validation_loss_nonneg d w k Hv) as Hb.
  destruct (flt _ (best_validation_loss (run d w k))) eqn:Hlt;
    [reflexivity|].
  cbn [andb].
  destruct (flt _ (fmul _ _)) eqn:Ht; [|reflexivity].
  apply fmul_threshold in Ht; [congruence | exact Hb].
Qed.

(** *** Tracking the best model *)

Lemma py_min_snoc (b : float) (ls : list float) (x : float) :
  py_min b (ls ++ [x]) =
  if flt x (py_min b ls) then x else py_min b ls.
Proof. unfold py_min. rewrite fold_left_app. reflexivity. Qed.

Lemma py_min_le (ls : list float) : forall b,
  py_min b ls = b \/ flt (py_min b ls) b = true.
Proof.
  induction ls as [|x ls IH]; intros b; [left; reflexivity|].
  change (py_min b (x :: ls)) with (py_min (if flt x b then x else b) ls).
  destruct (flt x b) eqn:Hx.
  - right. destruct (IH x) as [-> | H]; [exact Hx|].
    eapply flt_trans; eauto.
  - apply IH.
Qed.

Lemma py_min_in (ls : list float) : forall b,
  py_min b ls = b \/ In (py_min b ls) ls.
Proof.
  induction ls as [|x ls IH]; intros b; [left; reflexivity|].
  change (py_min b (x :: ls)) with (py_min (if flt x b then x else b) ls).
  destruct (flt x b).
  - destruct (IH x) as [-> | H]; right; [left; reflexivity | right; exact H].
  - destruct (IH b) as [-> | H]; [left; reflexivity | right; right; exact H].
Qed.

Lemma py_min_lower (ls : list float) : forall b y,
  y = b \/ In y ls -> flt y (py_min b ls) = false.
Proof.
  induction ls as [|x ls IH]; intros b y Hy.
  - destruct Hy as [-> | []]. apply flt_irrefl.
  - change (py_min b (x :: ls)) with (py_min (if flt x b then x else b) ls).
    destruct (flt x b) eqn:Hx.
    + destruct Hy as [-> | [<- | Hy]]; [| apply IH; auto ..].
      destruct (flt b (py_min x ls)) eqn:Hb; [|reflexivity].
      rewrite <- (IH x x (or_introl eq_refl)).
      apply eq_sym, flt_trans with (b := b); assumption.
    + destruct Hy as [-> | [<- | Hy]]; [apply IH; auto | | apply IH; auto].
      destruct (py_min_le ls b) as [-> | Hm]; [exact Hx|].
      destruct (flt x (py_min b ls)) eqn:Hxm; [|reflexivity].
      rewrite <- Hx. apply eq_sym, flt_trans with (b := py_min b ls); assumption.
Qed.

Lemma losses_so_far_S (d : datasets3) (w : W) (k : nat) :
  losses_so_far d w (S k) = losses_so_far d w k ++ loss_at d w k.
Proof.
  unfold losses_so_far. rewrite seq_S, flat_map_app. cbn [flat_map Nat.add].
  rewrite app_nil_r. reflexivity.
Qed.

(** A step strictly lowers [best_validation_loss] exactly when it checks the
    validation set and finds a loss below it. *)
Lemma step_improves (s : state) :
  if flt (best_validation_loss (step s)) (best_validation_loss s)
  then exists it,
         checking s = Some it /\
         this_validation_loss (step s) = Some (best_validation_loss (step s)) /\
         best_validation_loss (step s) = np_mean (validation_losses (step s)) /\
         best_iter (step s) = it /\
         test_score (step s) = np_mean (test_losses (step s))
  else best_validation_loss (step s) = best_validation_loss s /\
       best_iter (step s) = best_iter s /\
       test_score (step s) = test_score s.
Proof.
  destruct (checking s) as [it|] eqn:Hc.
  - destruct (step_checking s it Hc) as (Ht & H).
    destruct (flt (np_mean _) (best_validation_loss s)) eqn:Hlt.
    + destruct H as (Hb & Hi & Hs & _).
      replace (flt (best_validation_loss (step s)) (best_validation_loss s))
        with true by (rewrite Hb; auto).
      exists it. rewrite Hb. auto.
    + destruct H as (Hb & Hi & Hs & _).
      replace (flt (best_validation_loss (step s)) (best_validation_loss s))
        with false by (rewrite Hb, flt_irrefl; auto).
      auto.
  - destruct (step_not_checking s Hc) as (_ & Hb & Hi & Hs & _).
    replace (flt (best_validation_loss (step s)) (best_validation_loss s))
      with false by (rewrite Hb, flt_irrefl; auto).
    auto.
Qed.

Lemma step_best_le (s : state) :
  best_validation_loss (step s) = best_validation_loss s \/
  flt (best_validation_loss (step s)) (best_validation_loss s) = true.
Proof.
  pose proof (step_improves s) as H.
  destruct (flt _ _); [right; reflexivity | left; apply H].
Qed.

Lemma run_best_le (d : datasets3) (w : W) (n m : nat) :
  (n <= m)%nat ->
  best_validation_loss (run d w m) = best_validation_loss (run d w n) \/
  flt (best_validation_loss (run d w m)) (best_validation_loss (run d w n)) = true.
Proof.
  induction 1 as [|m _ IH]; [left; reflexivity|].
  rewrite run_S. destruct (step_best_le (run d w m)) as [-> | H]; [exact IH|].
  right. destruct IH as [<- | IH]; [exact H | eapply flt_trans; eauto].
Qed.

Lemma run_best_py_min (d : datasets3) (w : W) (k : nat) :
  best_validation_loss (run d w k) = py_min np_inf (losses_so_far d w k).
Proof.
  induction k as [|k IH]; [reflexivity|].
  rewrite losses_so_far_S. unfold loss_at. rewrite run_S.
  destruct (checking (run d w k)) as [it|] eqn:Hc.
  - destruct (step_checking _ it Hc) as (-> & H).
    rewrite py_min_snoc, <- IH.
    destruct (flt _ _); apply H.
  - rewrite app_nil_r, <- IH. apply (step_not_checking _ Hc).
Qed.

Lemma loss_at_checking (d : datasets3) (w : W) (j : nat) :
  checking (run d w j) <> None ->
  loss_at d w j = [np_mean (validation_losses (run d w (S j)))].
Proof.
  intros H. unfold loss_at.
  destruct (checking (run d w j)) as [it|] eqn:Hc; [|congruence].
  rewrite run_S. destruct (step_checking _ it Hc) as (-> & _). reflexivity.
Qed.

Lemma losses_so_far_in (d : datasets3) (w : W) (k j : nat) :
  (j < k)%nat -> checking (run d w j) <> None ->
  In (np_mean (validation_losses (run d w (S j)))) (losses_so_far d w k).
Proof.
  intros Hj Hc. unfold losses_so_far. apply in_flat_map.
  exists j. split; [apply in_seq; lia|].
  rewrite loss_at_checking by exact Hc. left; reflexivity.
Qed.

Lemma run_best_lowest (d : datasets3) (w : W) (k : nat) :
  best_by_validation_error d w k.
Proof.
  intros j Hj Hc. rewrite run_best_py_min.
  apply py_min_lower. right. apply losses_so_far_in; assumption.
Qed.

(** What is recorded as best is what was measured at one validation check. *)
Lemma run_recorded (d : datasets3) (w : W) (k : nat) :
  (best_validation_loss (run d w k) = np_inf /\
   best_iter (run d w k) = 0 /\
   test_score (run d w k) = float_lit 0) \/
  exists j, (j < k)%nat /\
    checking (run d w j) = Some (best_iter (run d w k)) /\
    best_validation_loss (run d w k) = np_mean (validation_losses (run d w (S j))) /\
    test_score (run d w k) = np_mean (test_losses (run d w (S j))).
Proof.
  induction k as [|k IH]; [left; repeat split|].
  pose proof (step_improves (run d w k)) as H. rewrite <- run_S in H.
  destruct (flt _ _).
  - destruct H as (it & Hc & _ & Hb & Hi & Hs).
    right. exists k. rewrite Hi. auto.
  - destruct H as (-> & -> & ->).
    destruct IH as [IH | (j & Hj & IH)]; [left; exact IH|].
    right. exists j. split; [lia | exact IH].
Qed.

Lemma run_most_recent (d : datasets3) (w : W) (k : nat) :
  (best_iter (run d w k) = 0 /\
   forall j, (j < k)%nat -> improves d w j = false) \/
  exists j, (j < k)%nat /\ improves d w j = true /\
    checking (run d w j) = Some (best_iter (run d w k)) /\
    forall j', (j < j' < k)%nat -> improves d w j' = false.
Proof.
  induction k as [|k IH]; [left; split; [reflexivity | intros; lia]|].
  pose proof (step_improves (run d w k)) as H. rewrite <- run_S in H.
  destruct (flt _ _) eqn:Hi.
  - destruct H as (it & Hc & _ & _ & Hb & _).
    right. exists k. rewrite Hb. repeat split; auto; intros; lia.
  - destruct H as (_ & -> & _).
    destruct IH as [(H0 & Hn) | (j & Hj & Hj1 & Hj2 & Hj3)].
    + left. split; [exact H0|]. intros j Hj.
      destruct (Nat.eq_dec j k) as [-> | Hne]; [exact Hi | apply Hn; lia].
    + right. exists j. repeat split; auto.
      intros j' Hj'. destruct (Nat.eq_dec j' k) as [-> | Hne];
        [exact Hi | apply Hj3; lia].
Qed.

(** C1 (amended).  The loop tracks the best model by validation error, and
    reports that model's test error: at every point of a run no model
    evaluated at a validation check so far has a validation error below
    [best_validation_loss], and unless nothing has been recorded yet,
    [best_iter], [best_validation_loss] and [test_score] are the iteration,
    the validation error and the test error measured at one and the same
    check.  The state [evaluate_model] returns is such a point. *)
Theorem best_model_by_validation_error (d : datasets3) (w : W) (k : nat) :
  (forall fuel s, evaluate_model fuel d w = Some s -> exists k', s = run d w k') /\
  best_by_validation_error d w k /\
  ((best_validation_loss (run d w k) = np_inf /\
    best_iter (run d w k) = 0 /\
    test_score (run d w k) = float_lit 0) \/
   exists j, (j < k)%nat /\
     checking (run d w j) = Some (best_iter (run d w k)) /\
     best_validation_loss (run d w k) =
       np_mean (validation_losses (run d w (S j))) /\
     test_score (run d w k) = np_mean (test_losses (run d w (S j)))).
Proof.
  split; [|split; [apply run_best_lowest | apply run_recorded]].
  intros fuel s H. apply evaluate_model_run in H as (k' & H & _).
  exists k'. exact H.
Qed.

(** C9.  Throughout a run [best_validation_loss] is non-increasing; at every
    point it is the minimum, starting from [np.inf], of the validation
    losses computed so far; [best_iter] and [test_score] are assigned exactly
    by the steps that strictly lower it, at a validation check, and keep
    their values otherwise; so [best_iter] is the iteration of the most
    recent strict improvement (and 0 before the first). *)
Theorem best_validation_loss_is_running_minimum (d : datasets3) (w : W) :
  (forall n m, (n <= m)%nat ->
     best_validation_loss (run d w m) = best_validation_loss (run d w n) \/
     flt (best_validation_loss (run d w m))
         (best_validation_loss (run d w n)) = true) /\
  (forall k,
     best_validation_loss (run d w k) = py_min np_inf (losses_so_far d w k) /\
     (forall l, In l (losses_so_far d w k) ->
                flt l (best_validation_loss (run d w k)) = false) /\
     (best_validation_loss (run d w k) = np_inf \/
      In (best_validation_loss (run d w k)) (losses_so_far d w k))) /\
  (forall k,
     if improves d w k
     then exists it,
            checking (run d w k) = Some it /\
            this_validation_loss (run d w (S k)) =
              Some (best_validation_loss (run d w (S k))) /\
            best_iter (run d w (S k)) = it /\
            test_score (run d w (S k)) = np_mean (test_losses (run d w (S k)))
     else best_validation_loss (run d w (S k)) = best_validation_loss (run d w k) /\
          best_iter (run d w (S k)) = best_iter (run d w k) /\
          test_score (run d w (S k)) = test_score (run d w k)) /\
  (forall k,
     (best_iter (run d w k) = 0 /\
      forall j, (j < k)%nat -> improves d w j = false) \/
     exists j, (j < k)%nat /\ improves d w j = true /\
       checking (run d w j) = Some (best_iter (run d w k)) /\
       forall j', (j < j' < k)%nat -> improves d w j' = false).
Proof.
  split; [|split; [|split]].
  - apply run_best_le.
  - intros k. rewrite run_best_py_min. split; [reflexivity | split].
    + intros l Hl. apply py_min_lower. right; exact Hl.
    + apply py_min_in.
  - intros k. unfold improves. rewrite run_S.
    pose proof (step_improves (run d w k)) as H.
    destruct (flt _ _).
    + destruct H as (it & Hc & Ht & _ & Hi & Hs). exists it. auto.
    + exact H.
  - apply run_most_recent.
Qed.

(** *** Minibatches *)

Lemma slice_nonneg {A : Type} (lo hi : Z) (a : list A) :
  0 <= lo <= hi ->
  Py.slice lo hi a = firstn (Z.to_nat (hi - lo)) (skipn (Z.to_nat lo) a).
Proof.
  intros H. unfold Py.slice, Py.clamp.
  replace (lo <? 0) with false by lia. replace (hi <? 0) with false by lia.
  set (len := Z.of_nat (length a)).
  destruct (Z_le_gt_dec lo len) as [Hlo | Hlo].
  - rewrite (Z.min_l lo len) by lia.
    destruct (Z_le_gt_dec hi len) as [Hhi | Hhi].
    + rewrite (Z.min_l hi len) by lia. reflexivity.
    + rewrite (Z.min_r hi len) by lia.
      rewrite !firstn_all2; [reflexivity | |]; rewrite length_skipn; lia.
  - rewrite !(Z.min_r _ len) by lia.
    rewrite Z.sub_diag. cbn [Z.to_nat firstn].
    rewrite (skipn_all2 (n := Z.to_nat lo)) by lia.
    rewrite firstn_nil. reflexivity.
Qed.

Lemma minibatch_chunk {A : Type} (i : nat) (a : list A) :
  1 <= batch_size -> minibatch (Z.of_nat i) a = chunk i a.
Proof.
  intros Hb. unfold minibatch, chunk. rewrite slice_nonneg by nia.
  f_equal; [f_equal; lia | f_equal; nia].
Qed.

Lemma range_n_batches (d : dataset) :
  1 <= batch_size ->
  Py.range (n_batches d) =
  map Z.of_nat (seq 0 (length (set_x d) / Z.to_nat batch_size)).
Proof.
  intros Hb. unfold Py.range, n_batches, Py.shape0. do 2 f_equal.
  rewrite <- (Z2Nat.id batch_size) at 1 by lia.
  rewrite <- Nat2Z.inj_div. apply Nat2Z.id.
Qed.

Lemma losses_error_on (w' : W) (d : dataset) :
  1 <= batch_size ->
  np_mean (map (fun i => valid_fn w' (minibatch i (set_x d))
                                     (minibatch i (set_y d)))
               (Py.range (n_batches d))) = error_on w' d.
Proof.
  intros Hb. unfold error_on, minibatches.
  rewrite range_n_batches by exact Hb. rewrite !map_map. f_equal.
  apply map_ext. intros i. cbn [fst snd].
  rewrite !minibatch_chunk by exact Hb. reflexivity.
Qed.

Lemma chunk_length {A : Type} (i : nat) (a : list A) :
  (i < length a / Z.to_nat batch_size)%nat ->
  length (chunk i a) = Z.to_nat batch_size.
Proof.
  intros Hi. unfold chunk. rewrite length_firstn, length_skipn.
  set (b := Z.to_nat batch_size) in *.
  assert (b <> 0)%nat by (intros E; rewrite E in Hi; cbn in Hi; lia).
  pose proof (Nat.div_mod_eq (length a) b).
  pose proof (Nat.mod_upper_bound (length a) b).
  nia.
Qed.

Lemma minibatches_full (d : dataset) :
  Forall (fun b => length (fst b) = Z.to_nat batch_size) (minibatches d).
Proof.
  unfold minibatches. apply Forall_map, Forall_forall.
  intros i Hi. apply in_seq in Hi. cbn [fst].
  apply chunk_length. lia.
Qed.

Lemma firstn_plus {A : Type} (n m : nat) : forall (l : list A),
  firstn (n + m) l = firstn n l ++ firstn m (skipn n l).
Proof.
  induction n as [|n IH]; intros l; [reflexivity|].
  destruct l as [|x l]; cbn [Nat.add firstn skipn app].
  - rewrite firstn_nil. reflexivity.
  - rewrite IH. reflexivity.
Qed.

Lemma concat_chunks {A : Type} (a : list A) (n : nat) :
  concat (map (fun i => chunk i a) (seq 0 n)) =
  firstn (n * Z.to_nat batch_size) a.
Proof.
  induction n as [|n IH]; [reflexivity|].
  rewrite seq_S, map_app, concat_app, IH. cbn [map concat Nat.add].
  rewrite app_nil_r. unfold chunk.
  replace (S n * Z.to_nat batch_size)%nat
    with (n * Z.to_nat batch_size + Z.to_nat batch_size)%nat by lia.
  symmetry. apply firstn_plus.
Qed.

(** The complete minibatches of a split are its first [n_batches] blocks of
    [batch_size] rows. *)
Lemma minibatches_consecutive (d : dataset) :
  Z.of_nat (length (minibatches d)) = Z.max 0 (n_batches d) \/ batch_size < 1.
Proof.
  destruct (Z_lt_ge_dec batch_size 1) as [H | H]; [right; exact H | left].
  unfold minibatches, n_batches, Py.shape0.
  rewrite length_map, length_seq.
  rewrite Nat2Z.inj_div, Z2Nat.id by lia.
  pose proof (Z.div_pos (Z.of_nat (length (set_x d))) batch_size). lia.
Qed.

(** A split has a complete minibatch only if [batch_size] is positive; so
    a minibatch is only trained on if it is. *)
Lemma n_batches_pos (a : dataset) : 1 <= n_batches a -> 1 <= batch_size.
Proof.
  unfold n_batches, Py.shape0. intros Hn.
  destruct (Z_lt_ge_dec batch_size 1) as [H | H]; [exfalso | lia].
  destruct (Z.eq_dec batch_size 0) as [E | E].
  - rewrite E, Z.div_0_r in Hn. lia.
  - pose proof (Z.div_mod (Z.of_nat (length (set_x a))) batch_size E).
    pose proof (Z.mod_neg_bound (Z.of_nat (length (set_x a)))
                  batch_size ltac:(lia)).
    nia.
Qed.

Lemma training_batch_size (d : datasets3) (s : state) (it : Z) :
  Inv d s -> training s = Some it -> 1 <= batch_size.
Proof.
  intros (_ & Ht & _ & _ & _ & _ & _ & Hc). unfold training.
  destruct (pc s) as [|i| |e]; try discriminate.
  destruct (i <? n_train_batches s) eqn:Hi; try discriminate. intros _.
  apply (n_batches_pos (train_set d)). lia.
Qed.

Lemma checking_training (s : state) (it : Z) :
  checking s = Some it <->
  training s = Some it /\ validation_frequency s <> 0 /\
  (it + 1) mod validation_frequency s = 0.
Proof.
  unfold checking. destruct (training s) as [it'|]; [|split; [discriminate | intros (H & _); discriminate]].
  destruct (validation_frequency s =? 0) eqn:Hv; cbn [negb andb].
  - split; [discriminate | intros (_ & H & _); lia].
  - destruct ((it' + 1) mod validation_frequency s =? 0) eqn:Hm.
    + split; [intros [= <-]; repeat split; lia | intros ([= <-] & _); reflexivity].
    + split; [discriminate | intros ([= <-] & _ & H); lia].
Qed.

Lemma validation_losses_error_on (d : datasets3) (s : state) :
  Inv d s -> 1 <= batch_size ->
  np_mean (validation_losses s) = error_on (net s) (valid_set d) /\
  np_mean (test_losses s) = error_on (net s) (test_set d).
Proof.
  intros (Hd & _ & Hv & Ht & _) Hb. unfold validation_losses, test_losses.
  rewrite Hd, Hv, Ht. split; apply losses_error_on, Hb.
Qed.

(** C5.  At every validation check, [this_validation_loss] is the mean of
    [valid_fn] over the first [n_valid_batches] consecutive minibatches of
    [batch_size] rows of the validation set, and if the check finds a new
    best model, [test_score] is the mean of [valid_fn] over the first
    [n_test_batches] such minibatches of the test set, both for the network
    parameters as they are after the training step. *)
Theorem validation_loss_is_mean (d : datasets3) (w : W) (k : nat) (it : Z) :
  checking (run d w k) = Some it ->
  this_validation_loss (run d w (S k)) =
    Some (error_on (net (run d w (S k))) (valid_set d)) /\
  (improves d w k = true ->
   test_score (run d w (S k)) = error_on (net (run d w (S k))) (test_set d)) /\
  (forall split, In split [valid_set d; test_set d] ->
     Z.of_nat (length (minibatches split)) = n_batches split /\
     Forall (fun b => length (fst b) = Z.to_nat batch_size) (minibatches split) /\
     concat (map fst (minibatches split)) =
       firstn (Z.to_nat (n_batches split * batch_size)) (set_x split) /\
     concat (map snd (minibatches split)) =
       firstn (Z.to_nat (n_batches split * batch_size)) (set_y split)).
Proof.
  intros Hc.
  assert (Hb : 1 <= batch_size).
  { apply checking_training in Hc as (Ht & _).
    eapply training_batch_size; [apply Inv_run | exact Ht]. }
  destruct (validation_losses_error_on d (run d w (S k)) (Inv_run d w (S k)) Hb)
    as (Hv & Hts).
  split; [|split].
  - rewrite <- Hv, run_S. apply (step_checking _ it Hc).
  - unfold improves. rewrite <- Hts, run_S. intros Hi.
    pose proof (step_improves (run d w k)) as H. rewrite Hi in H.
    destruct H as (_ & _ & _ & _ & _ & H). exact H.
  - intros split _.
    assert (Hn : 0 <= n_batches split)
      by (apply Z.div_pos; [apply Nat2Z.is_nonneg | lia]).
    assert (Hlen : length (minibatches split) = Z.to_nat (n_batches split)).
    { destruct (minibatches_consecutive split) as [H | H]; lia. }
    repeat split.
    + lia.
    + apply minibatches_full.
    + unfold minibatches in *. rewrite length_map, length_seq in Hlen.
      rewrite map_map. cbn [fst]. rewrite concat_chunks, Hlen. f_equal. nia.
    + unfold minibatches in *. rewrite length_map, length_seq in Hlen.
      rewrite map_map. cbn [snd]. rewrite concat_chunks, Hlen. f_equal. nia.
Qed.

(** *** Counting training steps *)

Lemma step_train_calls (s : state) :
  train_calls (step s) =
  train_calls s + (if is_some (training s) then 1 else 0).
Proof.
  unfold training, train_calls, is_some, step.
  destruct (pc s) as [|i| |e] eqn:Hpc.
  - step_cases; cbn [filter is_train_call]; lia.
  - step_cases; cbn [filter is_train_call length]; lia.
  - lia.
  - lia.
Qed.

Lemma Calls_init (d : datasets3) (w : W) : Calls (init d w).
Proof.
  unfold Calls, init, train_calls, initial_patience; simpl_state.
  destruct (batch_size =? 0); cbn; lia.
Qed.

Lemma Calls_step (d : datasets3) (s : state) :
  Inv d s -> Calls s -> Calls (step s).
Proof.
  intros (_ & _ & _ & _ & _ & Hp & _ & Hc) H.
  pose proof (step_train_calls s) as Hn.
  pose proof (step_patience_le s) as Hle.
  destruct (step_frame s) as (_ & Ht & _).
  unfold Calls in *. rewrite Ht, Hn. clear Ht Hn.
  unfold training, is_some. revert Hle.
  set (m := Z.max 0 (n_train_batches s)) in *.
  set (c := train_calls s) in *. clearbody c.
  unfold step, patience_increase. destruct (pc s) as [|i| |e] eqn:Hpc.
  - destruct (done_looping s) eqn:Hd; step_cases; intros;
      rewrite ?Hd; try discriminate; lia.
  - destruct (i <? n_train_batches s) eqn:Hi.
    + assert (Hm : m = n_train_batches s) by lia.
      unfold body, iter_of. rewrite train_eq. simpl_state.
      rewrite <- Hm. clearbody m.
      destruct H as (H1 & H2 & H3 & H4).
      repeat (first [rewrite validate_eq | case_if]; simpl_state);
        intros; rewrite ?H4; try lia.
    + simpl_state. intros _.
      destruct H as (H1 & H2 & H3 & ->). nia.
  - rewrite Hpc. intros _. replace (c + 0) with c by lia. exact H.
  - rewrite Hpc. intros _. replace (c + 0) with c by lia. exact H.
Qed.

Lemma Calls_run (d : datasets3) (w : W) (k : nat) : Calls (run d w k).
Proof.
  induction k as [|k IH]; [apply Calls_init|].
  rewrite run_S. apply (Calls_step d); [apply Inv_run | exact IH].
Qed.

Lemma n_batches_nonneg (d : dataset) : 1 <= batch_size -> 0 <= n_batches d.
Proof.
  intros H. apply Z.div_pos; [apply Nat2Z.is_nonneg | lia].
Qed.

(** C7.  For [n_epochs >= 0] and [batch_size >= 1], at every point of a run
    the number of calls of [train_fn] so far is at most
    [min(n_epochs * n_train_batches, P + 1)], where [P], the value of
    [patience] at that point, is the largest it has taken; so at most 10001
    training steps have run while [patience] still has its initial value. *)
Theorem train_calls_bounded (d : datasets3) (w : W) (k : nat) :
  0 <= n_epochs -> 1 <= batch_size ->
  train_calls (run d w k) <=
    Z.min (n_epochs * n_train_batches (run d w k)) (patience (run d w k) + 1) /\
  (forall j, (j <= k)%nat -> patience (run d w j) <= patience (run d w k)) /\
  (patience (run d w k) = 10000 -> train_calls (run d w k) <= 10001).
Proof.
  intros Hn Hb.
  assert (H : train_calls (run d w k) <=
              Z.min (n_epochs * n_train_batches (run d w k))
                    (patience (run d w k) + 1)).
  { pose proof (Calls_run d w k) as H.
    destruct (Inv_run d w k) as (_ & Ht & _ & _ & _ & _ & He & _).
    pose proof (n_batches_nonneg (train_set d) Hb) as Hm.
    unfold Calls in H. rewrite Ht in *.
    rewrite (Z.max_r 0 (n_batches (train_set d))) in H by lia.
    set (m := n_batches (train_set d)) in *.
    assert (epoch (run d w k) * m <= n_epochs * m) by nia.
    destruct (pc (run d w k)); [destruct (done_looping _) | |
                                destruct (done_looping _) | ]; nia. }
  split; [exact H | split].
  - intros j Hj. apply run_patience_le, Hj.
  - intros Hp. rewrite Hp in H. lia.
Qed.

(** *** The schedule of validation checks *)

Lemma step_validations (s : state) :
  validations (step s) =
  validations s + (if is_some (checking s) then 1 else 0).
Proof.
  unfold checking, training, validations, is_some, step.
  destruct (pc s) as [|i| |e] eqn:Hpc.
  - step_cases; cbn [filter is_validation]; lia.
  - destruct (i <? n_train_batches s); [|simpl_state; lia].
    unfold body. rewrite train_eq. simpl_state.
    destruct (validation_frequency s =? 0); cbn [negb andb].
    + simpl_state. cbn [filter is_validation]. case_if; cbn [filter is_validation]; lia.
    + destruct ((iter_of s i + 1) mod validation_frequency s =? 0).
      * step_cases; cbn [filter is_validation length]; lia.
      * step_cases; cbn [filter is_validation length]; lia.
  - lia.
  - lia.
Qed.

(** While a minibatch is trained on, [validation_frequency] is not zero. *)
Lemma training_validation_frequency (d : datasets3) (s : state) (it : Z) :
  Inv d s -> training s = Some it -> 1 <= validation_frequency s.
Proof.
  intros (_ & _ & _ & _ & Hf & _ & _ & Hc). unfold training.
  destruct (pc s) as [|i| |e]; try discriminate.
  destruct (i <? n_train_batches s) eqn:Hi; try discriminate. lia.
Qed.

(** With [validation_frequency = n_train_batches], the check falls on the
    last minibatch of an epoch. *)
Lemma last_minibatch (s : state) (i : Z) :
  0 <= i < n_train_batches s ->
  ((iter_of s i + 1) mod n_train_batches s =? 0) = (i + 1 =? n_train_batches s).
Proof.
  intros Hi. unfold iter_of.
  replace ((epoch s - 1) * n_train_batches s + i + 1)
    with (i + 1 + (epoch s - 1) * n_train_batches s) by lia.
  rewrite Z_mod_plus_full.
  destruct (Z.eq_dec (i + 1) (n_train_batches s)) as [E | E].
  - rewrite E, Z_mod_same_full. lia.
  - rewrite Z.mod_small by lia. lia.
Qed.

Lemma Sched_init (d : datasets3) (w : W) : Sched (init d w).
Proof.
  unfold Sched, init, validations_in_epoch, epoch_completed, last_iter;
    simpl_state.
  split.
  - destruct (batch_size =? 0); [exact I | lia].
  - intros e. cbn [filter length]. case_if; lia.
Qed.

Lemma Sched_step (d : datasets3) (s : state) :
  Inv d s -> 1 <= n_train_batches s <= 5000 -> Sched s -> Sched (step s).
Proof.
  intros (_ & _ & _ & _ & Hf & _ & _ & Hc) Hn (Hs & Hv).
  assert (Hvf : validation_frequency s = n_train_batches s) by lia.
  unfold Sched.
  destruct (step_frame s) as (_ & Ht & _). rewrite Ht. clear Ht.
  unfold validations_in_epoch, epoch_completed in *.
  unfold step. destruct (pc s) as [|i| |e] eqn:Hpc.
  - destruct ((epoch s <? n_epochs) && negb (done_looping s)) eqn:He.
    + apply andb_true_iff in He as (He & Hd). apply negb_true_iff in Hd.
      specialize (Hs Hd). simpl_state.
      change (last_iter (set_pc (set_epoch s (epoch s + 1)) (For_head 0)))
        with (last_iter s).
      split; [repeat split; [lia | lia | exact Hd]|].
      intros e. rewrite Hv. repeat case_if; nia.
    + unfold finish; simpl_state. split; [exact Hs|].
      intros e. cbn [filter is_validation_of]. apply Hv.
  - destruct Hs as (Hi1 & Hi2 & Hi3).
    destruct (i <? n_train_batches s) eqn:Hi.
    + unfold body. rewrite train_eq. simpl_state.
      rewrite Hvf, last_minibatch by lia.
      replace (n_train_batches s =? 0) with false by lia.
      unfold iter_of, patience_increase in *.
      destruct (i + 1 =? n_train_batches s) eqn:Hlast.
      * rewrite validate_eq. simpl_state.
        repeat (case_if; simpl_state); cbn [last_iter iter set_pc set_done_looping];
          (split;
           [repeat split; try lia; try exact Hi3; try (intros; lia)
           |intros e0; specialize (Hv e0); revert Hv;
            cbn [filter is_validation_of length];
            repeat case_if; cbn [length]; nia]).
      * repeat (case_if; simpl_state); cbn [last_iter iter set_pc set_done_looping];
          (split;
           [repeat split; try lia; try exact Hi3; try (intros; lia)
           |intros e0; specialize (Hv e0); revert Hv;
            cbn [filter is_validation_of length];
            repeat case_if; cbn [length]; nia]).
    + simpl_state. change (last_iter (set_pc s While_head)) with (last_iter s).
      split; [intros _; lia|]. exact Hv.
  - rewrite Hpc. auto.
  - rewrite Hpc. auto.
Qed.

Lemma Sched_run (d : datasets3) (w : W) (k : nat) :
  1 <= n_batches (train_set d) <= 5000 -> Sched (run d w k).
Proof.
  intros Hn. induction k as [|k IH]; [apply Sched_init|].
  rewrite run_S. apply (Sched_step d); [apply Inv_run | | exact IH].
  destruct (Inv_run d w k) as (_ & -> & _). exact Hn.
Qed.

Lemma checking_last_minibatch (d : datasets3) (s : state) (it : Z) :
  Inv d s -> 1 <= n_train_batches s <= 5000 ->
  checking s = Some it <->
  training s = Some it /\ pc s = For_head (n_train_batches s - 1).
Proof.
  intros (_ & _ & _ & _ & Hf & _ & _ & Hc) Hn.
  assert (Hvf : validation_frequency s = n_train_batches s) by lia.
  rewrite checking_training, Hvf. unfold training.
  destruct (pc s) as [|i| |e]; try (split; intros (H & _); discriminate).
  destruct (i <? n_train_batches s) eqn:Hi;
    [|split; intros (H & _); discriminate].
  pose proof (last_minibatch s i ltac:(lia)) as Hl.
  split.
  - intros ([= <-] & _ & Hm). split; [reflexivity|]. f_equal. lia.
  - intros ([= <-] & [= Hi']). repeat split; lia.
Qed.

(** C3 (amended).  A validation check is made exactly after the training
    iterations [iter] with [(iter + 1)] divisible by [validation_frequency =
    min(n_train_batches, 10000 // 2)].  When [1 <= n_train_batches <= 5000]
    these are the iterations on the last minibatch of an epoch, so an epoch
    checks once, after its last minibatch, if it gets that far, and not at
    all if the patience test breaks it off earlier. *)
Theorem validation_schedule (d : datasets3) (w : W) (k : nat) :
  validation_frequency (run d w k) =
    Z.min (n_batches (train_set d)) (initial_patience / 2) /\
  validations (run d w (S k)) =
    validations (run d w k) + (if is_some (checking (run d w k)) then 1 else 0) /\
  (forall it,
     checking (run d w k) = Some it <->
     training (run d w k) = Some it /\
     (it + 1) mod validation_frequency (run d w k) = 0) /\
  (1 <= n_batches (train_set d) <= 5000 ->
   (forall it,
      checking (run d w k) = Some it <->
      training (run d w k) = Some it /\
      pc (run d w k) = For_head (n_batches (train_set d) - 1)) /\
   (forall e,
      validations_in_epoch e (run d w k) =
      if epoch_completed (run d w k) e then 1 else 0)).
Proof.
  pose proof (Inv_run d w k) as HI.
  assert (Ht : n_train_batches (run d w k) = n_batches (train_set d))
    by apply HI.
  split; [|split; [|split]].
  - destruct HI as (_ & _ & _ & _ & -> & _). rewrite Ht. reflexivity.
  - rewrite run_S. apply step_validations.
  - intros it. rewrite checking_training. split.
    + intros (H1 & _ & H2). auto.
    + intros (H1 & H2). repeat split; auto.
      pose proof (training_validation_frequency d _ it HI H1). lia.
  - intros Hn. split.
    + intros it. rewrite <- Ht. apply (checking_last_minibatch d); [exact HI | lia].
    + apply (Sched_run d w k Hn).
Qed.

(** *** What is read of the datasets *)

Lemma slice_firstn {A : Type} (lo hi : Z) (m : nat) (a b : list A) :
  0 <= lo <= hi -> (Z.to_nat hi <= m)%nat ->
  firstn m a = firstn m b -> Py.slice lo hi a = Py.slice lo hi b.
Proof.
  intros H Hm E. rewrite !slice_nonneg by exact H.
  rewrite !firstn_skipn_comm.
  replace (Z.to_nat lo + Z.to_nat (hi - lo))%nat with (Z.to_nat hi) by lia.
  rewrite <- (Nat.min_l _ _ Hm), <- !firstn_firstn, E. reflexivity.
Qed.

Lemma minibatch_agree (a b : dataset) (i : Z) :
  agree a b -> 0 <= i < n_batches a ->
  minibatch i (set_x a) = minibatch i (set_x b) /\
  minibatch i (set_y a) = minibatch i (set_y b).
Proof.
  intros (_ & Hx & Hy) Hi.
  pose proof (n_batches_pos a ltac:(lia)) as Hb.
  unfold minibatch.
  split; eapply slice_firstn; try eassumption; nia.
Qed.

Lemma n_batches_agree (a b : dataset) : agree a b -> n_batches b = n_batches a.
Proof.
  intros (H & _). unfold n_batches, Py.shape0. rewrite H. reflexivity.
Qed.

Lemma range_bounds (n i : Z) : In i (Py.range n) -> 0 <= i < n.
Proof.
  unfold Py.range. intros H. apply in_map_iff in H as (j & <- & Hj).
  apply in_seq in Hj. lia.
Qed.

Lemma losses_agree (a b : dataset) (w' : W) :
  agree a b ->
  map (fun i => valid_fn w' (minibatch i (set_x b)) (minibatch i (set_y b)))
      (Py.range (n_batches a)) =
  map (fun i => valid_fn w' (minibatch i (set_x a)) (minibatch i (set_y a)))
      (Py.range (n_batches a)).
Proof.
  intros H. apply map_ext_in. intros i Hi. apply range_bounds in Hi.
  destruct (minibatch_agree a b i H Hi) as (-> & ->). reflexivity.
Qed.

Lemma init_with_datasets (d d' : datasets3) (w : W) :
  agree3 d d' -> init d' w = with_datasets (init d w) d'.
Proof.
  intros (Ht & Hv & Hs). unfold init, with_datasets; simpl_state.
  fold (n_batches (train_set d')) (n_batches (valid_set d'))
       (n_batches (test_set d')) (n_batches (train_set d))
       (n_batches (valid_set d)) (n_batches (test_set d)).
  rewrite (n_batches_agree _ _ Ht), (n_batches_agree _ _ Hv),
    (n_batches_agree _ _ Hs). reflexivity.
Qed.

Lemma step_with_datasets (d d' : datasets3) (s : state) :
  Inv d s -> agree3 d d' ->
  step (with_datasets s d') = with_datasets (step s) d'.
Proof.
  intros HI (At & Av & As).
  destruct s as [c d0 w0 nt nv ns p vf bl bi ts ep dl it tl tr].
  unfold Inv in HI. simpl_state.
  destruct HI as (-> & -> & -> & -> & _ & _ & _ & Hc).
  destruct c as [|i| |e]; unfold step; simpl_with_datasets.
  - case_if; reflexivity.
  - destruct (i <? n_batches (train_set d)) eqn:Hi; [|reflexivity].
    destruct (minibatch_agree _ _ i At ltac:(lia)) as (Ex & Ey).
    unfold body. rewrite !train_eq. unfold iter_of. simpl_with_datasets.
    rewrite <- Ex, <- Ey.
    destruct (vf =? 0); [reflexivity|].
    destruct (((ep - 1) * n_batches (train_set d) + i + 1) mod vf =? 0).
    + rewrite !validate_eq. unfold validation_losses, test_losses.
      simpl_with_datasets.
      rewrite (losses_agree _ _ _ Av), (losses_agree _ _ _ As).
      repeat (case_if; simpl_with_datasets); try reflexivity; congruence.
    + repeat (case_if; simpl_with_datasets); try reflexivity; congruence.
  - reflexivity.
  - reflexivity.
Qed.

Lemma run_with_datasets (d d' : datasets3) (w : W) (k : nat) :
  agree3 d d' -> run d' w k = with_datasets (run d w k) d'.
Proof.
  intros H. induction k as [|k IH]; [apply init_with_datasets, H|].
  rewrite !run_S, IH. apply (step_with_datasets d); [apply Inv_run | exact H].
Qed.

(** With no complete training minibatch nothing is ever trained on. *)
Lemma no_batches_idle (d : datasets3) (w : W) (k : nat) :
  n_batches (train_set d) = 0 ->
  training (run d w k) = None /\
  train_calls (run d w k) = 0 /\
  best_validation_loss (run d w k) = np_inf /\
  test_score (run d w k) = float_lit 0.
Proof.
  intros Hn.
  assert (Ht : forall j, training (run d w j) = None).
  { intros j. destruct (Inv_run d w j) as (_ & Ht & _ & _ & _ & _ & _ & Hc).
    unfold training. destruct (pc (run d w j)); try reflexivity.
    replace (next <? n_train_batches (run d w j)) with false by lia.
    reflexivity. }
  split; [apply Ht|].
  induction k as [|k IH]; [repeat split|].
  rewrite run_S.
  pose proof (step_train_calls (run d w k)) as Hc.
  rewrite Ht in Hc. cbn [is_some] in Hc.
  assert (Hk : checking (run d w k) = None)
    by (unfold checking; rewrite Ht; reflexivity).
  destruct (step_not_checking _ Hk) as (_ & -> & _ & -> & _).
  destruct IH as (? & ? & ?). repeat split; auto; lia.
Qed.

(** C8.  A run uses, of every split, only its complete minibatches: two
    datasets triples with the same numbers of rows that agree on the first
    [floor(n / batch_size) * batch_size] rows of every split give the same
    state at every step.  And when [batch_size] exceeds the number of training
    rows, [n_train_batches] and [validation_frequency] are 0, no minibatch is
    ever trained on, no exception is raised, and the call returns normally
    with [best_validation_loss = np.inf] and [test_score = 0]. *)
Theorem only_complete_minibatches_used (d d' : datasets3) (w : W) :
  (agree3 d d' -> forall k, run d' w k = with_datasets (run d w k) d') /\
  (Py.shape0 (set_x (train_set d)) < batch_size ->
   n_train_batches (init d w) = 0 /\
   validation_frequency (init d w) = 0 /\
   (forall k, training (run d w k) = None /\
              train_calls (run d w k) = 0 /\
              pc (run d w k) <> Raised Py.ZeroDivisionError) /\
   exists fuel s,
     evaluate_model fuel d w = Some s /\ pc s = Finished /\
     train_calls s = 0 /\
     best_validation_loss s = np_inf /\ test_score s = float_lit 0).
Proof.
  split; [intros H k; apply run_with_datasets, H|].
  intros Hlt.
  assert (Hn : n_batches (train_set d) = 0).
  { unfold n_batches. apply Z.div_small. unfold Py.shape0 in *. lia. }
  assert (Hb : batch_size <> 0) by (unfold Py.shape0 in Hlt; lia).
  split; [exact Hn | split; [|split]].
  - unfold init; simpl_state. fold (n_batches (train_set d)). rewrite Hn.
    reflexivity.
  - intros k. destruct (no_batches_idle d w k Hn) as (H1 & H2 & _).
    repeat split; auto.
    destruct (Inv_run d w k) as (_ & _ & _ & _ & _ & _ & _ & Hc).
    intros E. rewrite E in Hc. contradiction.
  - destruct (terminates d w Hb) as (k & Hk).
    exists k, (run d w k).
    destruct (no_batches_idle d w k Hn) as (_ & H2 & H3 & H4).
    repeat split; auto.
    apply exec_halts; [lia|]. fold (run d w k). unfold halted.
    rewrite Hk. reflexivity.
Qed.

(** *** One function for validation and test *)

Lemma losses_of_state (d : datasets3) (s : state) :
  Inv d s ->
  validation_losses s = losses (net s) (valid_set d) /\
  test_losses s = losses (net s) (test_set d).
Proof.
  intros (Hd & _ & Hv & Ht & _). unfold validation_losses, test_losses, losses.
  rewrite Hd, Hv, Ht. split; reflexivity.
Qed.

Lemma check_uses_valid_fn (d : datasets3) (w : W) (k : nat) (it : Z) :
  checking (run d w k) = Some it ->
  this_validation_loss (run d w (S k)) =
    Some (np_mean (losses (net (run d w (S k))) (valid_set d))) /\
  (improves d w k = true ->
   test_score (run d w (S k)) =
     np_mean (losses (net (run d w (S k))) (test_set d))).
Proof.
  intros Hc.
  destruct (losses_of_state d _ (Inv_run d w (S k))) as (Hv & Ht).
  rewrite <- Hv, <- Ht, run_S. split.
  - apply (step_checking _ it Hc).
  - unfold improves. rewrite run_S. intros Hi.
    pose proof (step_improves (run d w k)) as H. rewrite Hi in H.
    destruct H as (_ & _ & _ & _ & _ & H). exact H.
Qed.

Lemma same_split_same_score (d : datasets3) (w : W) (k : nat) :
  valid_set d = test_set d ->
  test_score (run d w k) = best_validation_loss (run d w k) \/
  best_validation_loss (run d w k) = np_inf /\
  test_score (run d w k) = float_lit 0.
Proof.
  intros E. induction k as [|k IH]; [right; split; reflexivity|].
  pose proof (step_improves (run d w k)) as H. rewrite <- run_S in H.
  destruct (flt _ _).
  - destruct H as (_ & _ & _ & Hb & _ & Ht). left.
    destruct (losses_of_state d _ (Inv_run d w (S k))) as (Hv & Hs).
    rewrite Hb, Ht, Hv, Hs, E. reflexivity.
  - destruct H as (-> & _ & ->). exact IH.
Qed.

(** ** Further properties of [evaluate_model] *)

(** *** Exceptions and runs that train nothing *)

(** X1.  With [batch_size = 0] the first [//] raises [ZeroDivisionError]: the
    call stops at once, whatever the fuel, having printed nothing, called
    [train_fn] never and left the parameters as they were. *)
Theorem zero_batch_size_raises (d : datasets3) (w : W) (fuel : nat) :
  batch_size = 0 ->
  exists s, evaluate_model fuel d w = Some s /\
            pc s = Raised Py.ZeroDivisionError /\
            trace s = [] /\ net s = w /\ datasets s = d.
Proof.
  intros Hb. exists (init d w).
  assert (Hpc : pc (init d w) = Raised Py.ZeroDivisionError).
  { unfold init; simpl_state. rewrite Hb. reflexivity. }
  repeat split; auto.
  unfold evaluate_model. destruct fuel; cbn [exec]; unfold halted;
    rewrite Hpc; reflexivity.
Qed.

(** X2.  With any other [batch_size], negative ones included, and any
    [n_epochs], no exception is raised at any point (the [%] by
    [validation_frequency] is never a division by zero) and the call
    returns normally. *)
Theorem nonzero_batch_size_returns (d : datasets3) (w : W) :
  batch_size <> 0 ->
  (forall k e, pc (run d w k) <> Raised e) /\
  exists fuel s,
    (forall fuel', (fuel <= fuel')%nat -> evaluate_model fuel' d w = Some s) /\
    pc s = Finished.
Proof.
  intros Hb. split.
  - intros k e E.
    destruct (Inv_run d w k) as (_ & _ & _ & _ & _ & _ & _ & Hc).
    rewrite E in Hc. contradiction.
  - destruct (terminates d w Hb) as (k & Hk).
    exists k, (run d w k). split; [|exact Hk].
    intros fuel' Hf. apply exec_halts; [exact Hf|].
    fold (run d w k). unfold halted. rewrite Hk. reflexivity.
Qed.

Lemma n_batches_negative (a : dataset) : batch_size < 0 -> n_batches a <= 0.
Proof.
  intros Hb. unfold n_batches, Py.shape0.
  pose proof (Z.div_mod (Z.of_nat (length (set_x a))) batch_size ltac:(lia)).
  pose proof (Z.mod_neg_bound (Z.of_nat (length (set_x a))) batch_size Hb).
  nia.
Qed.

(** The [for] body is never entered when there are no epochs to run or no
    complete training minibatch. *)
Lemma never_training (d : datasets3) (w : W) (k : nat) :
  n_epochs <= 0 \/ n_batches (train_set d) <= 0 ->
  training (run d w k) = None.
Proof.
  intros H.
  destruct (Inv_run d w k) as (_ & Ht & _ & _ & _ & _ & He & Hc).
  unfold training. destruct (pc (run d w k)) as [|i| |e]; try reflexivity.
  destruct H as [H | H]; [lia|].
  replace (i <? n_train_batches (run d w k)) with false by lia. reflexivity.
Qed.

Lemma step_idle (s : state) :
  training s = None ->
  net (step s) = net s /\ train_calls (step s) = train_calls s /\
  best_validation_loss (step s) = best_validation_loss s /\
  best_iter (step s) = best_iter s /\ test_score (step s) = test_score s /\
  patience (step s) = patience s.
Proof.
  intros Ht.
  assert (Hc : checking s = None) by (unfold checking; rewrite Ht; reflexivity).
  destruct (step_not_checking s Hc) as (_ & Hb & Hi & Hs & Hp).
  pose proof (step_train_calls s) as Hn. rewrite Ht in Hn. cbn [is_some] in Hn.
  repeat split; auto; try lia.
  revert Ht. unfold training, step.
  destruct (pc s) as [|i| |e]; try (intros _; step_cases; reflexivity).
  destruct (i <? n_train_batches s); [discriminate | reflexivity].
Qed.

(** X3.  With [n_epochs <= 0] or a negative [batch_size] nothing is trained or
    evaluated: at every point of the run the parameters are the initial ones,
    [train_fn] has not been called, and the best-model record still holds its
    initial values. *)
Theorem nothing_to_train (d : datasets3) (w : W) (k : nat) :
  n_epochs <= 0 \/ batch_size < 0 ->
  net (run d w k) = w /\ train_calls (run d w k) = 0 /\
  best_validation_loss (run d w k) = np_inf /\
  best_iter (run d w k) = 0 /\ test_score (run d w k) = float_lit 0 /\
  patience (run d w k) = 10000.
Proof.
  intros H.
  assert (H' : n_epochs <= 0 \/ n_batches (train_set d) <= 0).
  { destruct H as [H | H]; [left; exact H | right].
    apply n_batches_negative, H. }
  induction k as [|k IH]; [repeat split|].
  rewrite run_S.
  destruct (step_idle _ (never_training d w k H'))
    as (-> & -> & -> & -> & -> & ->).
  exact IH.
Qed.

(** *** Iterations and the sweep over the training set *)

Lemma step_last_iter (s : state) :
  last_iter (step s) =
  match training s with
  | Some it => it
  | None => last_iter s
  end.
Proof.
  unfold training, last_iter, step.
  destruct (pc s) as [|i| |e]; step_cases; reflexivity.
Qed.

(** The iteration about to be trained on is the number of training steps
    made so far, and its minibatch is that number modulo
    [n_train_batches]. *)
Lemma training_index (d : datasets3) (s : state) (i : Z) :
  Inv d s -> Calls s -> pc s = For_head i ->
  (i <? n_train_batches s) = true ->
  iter_of s i = train_calls s /\
  train_calls s mod n_batches (train_set d) = i.
Proof.
  intros (_ & Ht & _ & _ & _ & _ & _ & Hc) H Hpc Hi.
  unfold Calls in H. rewrite Hpc in *. cbn zeta in H.
  rewrite Z.max_r in H by lia. destruct H as (_ & H & _).
  unfold iter_of. rewrite <- Ht. split; [lia|].
  rewrite H, Z.add_comm, Z_mod_plus_full. apply Z.mod_small. lia.
Qed.

Lemma training_count (d : datasets3) (w : W) (k : nat) (it : Z) :
  training (run d w k) = Some it -> it = train_calls (run d w k).
Proof.
  unfold training.
  destruct (pc (run d w k)) as [|i| |e] eqn:Hpc; try discriminate.
  destruct (i <? n_train_batches (run d w k)) eqn:Hi; try discriminate.
  intros [= <-].
  apply (training_index d _ i (Inv_run d w k) (Calls_run d w k) Hpc Hi).
Qed.

(** X4.  [iter] numbers the training steps consecutively from 0: at every
    point of a run the last iteration trained on is the number of calls of
    [train_fn] so far minus one, and the next one trained on is that number. *)
Theorem iterations_consecutive (d : datasets3) (w : W) (k : nat) :
  last_iter (run d w k) = train_calls (run d w k) - 1 /\
  (forall it, training (run d w k) = Some it -> it = train_calls (run d w k)).
Proof.
  split; [|intros it; apply training_count].
  induction k as [|k IH]; [reflexivity|].
  rewrite run_S, step_last_iter, step_train_calls.
  destruct (training (run d w k)) as [it|] eqn:Ht; cbn [is_some].
  - apply training_count in Ht. lia.
  - lia.
Qed.

Lemma range_succ (n : Z) : 0 <= n -> Py.range (n + 1) = Py.range n ++ [n].
Proof.
  intros Hn. unfold Py.range.
  replace (Z.to_nat (n + 1)) with (S (Z.to_nat n)) by lia.
  rewrite seq_S, map_app. cbn [map Nat.add]. rewrite Z2Nat.id by lia.
  reflexivity.
Qed.

Lemma train_calls_nonneg (s : state) : 0 <= train_calls s.
Proof. unfold train_calls. lia. Qed.

(** What a step adds to the calls of [train_fn] and to the announcements
    of an iteration. *)
Lemma step_call_batches (s : state) :
  call_batches (trace (step s)) =
  match pc s with
  | For_head i =>
      if i <? n_train_batches s
      then [(minibatch i (set_x (train_set (datasets s))),
             minibatch i (set_y (train_set (datasets s))))]
      else []
  | _ => []
  end ++ call_batches (trace s).
Proof.
  unfold call_batches, step.
  destruct (pc s) as [|i| |e]; step_cases; reflexivity.
Qed.

Lemma step_announced (s : state) :
  announced (trace (step s)) =
  match training s with
  | Some it => if it mod 100 =? 0 then [it] else []
  | None => []
  end ++ announced (trace s).
Proof.
  unfold announced, training, step.
  destruct (pc s) as [|i| |e]; step_cases; reflexivity.
Qed.

Lemma step_net_training (s : state) :
  net (step s) =
  match pc s with
  | For_head i =>
      if i <? n_train_batches s
      then train_step (net s)
             (minibatch i (set_x (train_set (datasets s))),
              minibatch i (set_y (train_set (datasets s))))
      else net s
  | _ => net s
  end.
Proof.
  unfold train_step, step.
  destruct (pc s) as [|i| |e]; step_cases; reflexivity.
Qed.

(** X5.  The training set is swept in order, epoch after epoch, without
    shuffling: the minibatches passed to [train_fn], in the order of the
    calls, are minibatch [j mod n_train_batches] of the training set for
    [j = 0, 1, ...], one for every call. *)
Theorem training_sweeps_in_order (d : datasets3) (w : W) (k : nat) :
  train_batches (run d w k) =
  map (nth_batch d) (Py.range (train_calls (run d w k))).
Proof.
  induction k as [|k IH]; [reflexivity|].
  unfold train_batches in *.
  rewrite run_S, step_call_batches, step_train_calls, rev_app_distr, IH.
  unfold training, is_some.
  pose proof (Inv_run d w k) as HI.
  destruct (pc (run d w k)) as [|i| |e] eqn:Hpc;
    try (cbn [rev app]; rewrite app_nil_r, Z.add_0_r; reflexivity).
  destruct (i <? n_train_batches (run d w k)) eqn:Hi;
    [|cbn [rev app]; rewrite app_nil_r, Z.add_0_r; reflexivity].
  destruct (training_index d _ i HI (Calls_run d w k) Hpc Hi) as (_ & Hm).
  rewrite range_succ, map_app by apply train_calls_nonneg.
  f_equal. cbn [rev app map]. unfold nth_batch. cbn zeta. rewrite Hm.
  destruct HI as (-> & _). reflexivity.
Qed.

Lemma run_net_fold (d : datasets3) (w : W) (k : nat) :
  net (run d w k) = fold_left train_step (train_batches (run d w k)) w.
Proof.
  induction k as [|k IH]; [reflexivity|].
  unfold train_batches in *.
  rewrite run_S, step_net_training, step_call_batches, rev_app_distr,
    fold_left_app, <- IH.
  destruct (pc (run d w k)) as [|i| |e]; try reflexivity.
  destruct (i <? n_train_batches (run d w k)); reflexivity.
Qed.

Lemma run_params_after (d : datasets3) (w : W) (k : nat) :
  net (run d w k) = params_after d w (train_calls (run d w k)).
Proof.
  unfold params_after. rewrite <- training_sweeps_in_order. apply run_net_fold.
Qed.

(** X6.  The parameters are never restored: at every point of a run, and so
    in the state returned, they are the result of all training steps made
    so far.  What is recorded as best belongs to an earlier model: unless
    nothing has been recorded, [best_iter + 1] is a multiple of
    [validation_frequency] not above the number of training steps, and
    [best_validation_loss] and [test_score] are the means of [valid_fn] over
    the validation and the test minibatches for the parameters after
    exactly [best_iter + 1] training steps. *)
Theorem best_model_not_restored (d : datasets3) (w : W) (k : nat) :
  net (run d w k) = params_after d w (train_calls (run d w k)) /\
  ((best_validation_loss (run d w k) = np_inf /\
    best_iter (run d w k) = 0 /\
    test_score (run d w k) = float_lit 0) \/
   (0 <= best_iter (run d w k) < train_calls (run d w k) /\
    (best_iter (run d w k) + 1) mod validation_frequency (run d w k) = 0 /\
    best_validation_loss (run d w k) =
      np_mean (losses (params_after d w (best_iter (run d w k) + 1))
                      (valid_set d)) /\
    test_score (run d w k) =
      np_mean (losses (params_after d w (best_iter (run d w k) + 1))
                      (test_set d)))).
Proof.
  split; [apply run_params_after|].
  destruct (run_recorded d w k) as [H | (j & Hj & Hc & Hb & Ht)];
    [left; exact H | right].
  destruct (losses_of_state d _ (Inv_run d w (S j))) as (Hv & Hs).
  rewrite Hv in Hb. rewrite Hs in Ht.
  apply checking_training in Hc as (Htr & _ & Hm).
  pose proof (training_count d w j _ Htr) as Hn.
  pose proof (step_train_calls (run d w j)) as Hn'.
  rewrite <- run_S, Htr in Hn'. cbn [is_some] in Hn'.
  rewrite run_params_after, Hn', <- Hn in Hb, Ht.
  assert (Hle : train_calls (run d w (S j)) <= train_calls (run d w k)).
  { clear - Hj. induction Hj as [|m _ IH]; [lia|].
    rewrite (run_S d w m), step_train_calls.
    destruct (is_some _); lia. }
  pose proof (train_calls_nonneg (run d w j)).
  destruct (step_frame (run d w j)) as (_ & _ & _ & _ & Hf).
  assert (Hfk : validation_frequency (run d w k) =
                validation_frequency (run d w j)).
  { destruct (Inv_run d w k) as (_ & Ht1 & _ & _ & Hf1 & _).
    destruct (Inv_run d w j) as (_ & Ht2 & _ & _ & Hf2 & _).
    rewrite Hf1, Hf2, Ht1, Ht2. reflexivity. }
  rewrite Hfk. repeat split; auto; lia.
Qed.

(** *** Patience against the best iteration *)

Lemma Calls_patience (s : state) : Calls s -> train_calls s <= patience s + 1.
Proof.
  unfold Calls. cbn zeta.
  destruct (pc s); [destruct (done_looping s) | | destruct (done_looping s) |];
    lia.
Qed.

Lemma patience_best_iter (d : datasets3) (w : W) (k : nat) :
  0 <= best_iter (run d w k) <= Z.max 0 (last_iter (run d w k)) /\
  patience (run d w k) <= Z.max 10000 (2 * best_iter (run d w k)).
Proof.
  induction k as [|k IH];
    [unfold run, init, last_iter, initial_patience; cbn [steps];
     simpl_state; lia|].
  assert (Hl : last_iter (run d w k) = train_calls (run d w k) - 1).
  { clear IH. induction k as [|k IH]; [reflexivity|].
    rewrite run_S, step_last_iter, step_train_calls.
    destruct (training (run d w k)) as [it|] eqn:Ht; cbn [is_some].
    - apply training_count in Ht. lia.
    - lia. }
  pose proof (train_calls_nonneg (run d w k)) as Hn.
  rewrite run_S, step_last_iter.
  destruct (checking (run d w k)) as [it|] eqn:Hc.
  - destruct (step_checking _ it Hc) as (_ & H).
    apply checking_training in Hc as (Ht & _). rewrite Ht.
    apply training_count in Ht.
    destruct (flt _ (best_validation_loss (run d w k))).
    + destruct H as (_ & -> & _ & ->). destruct (flt _ _); lia.
    + destruct H as (_ & -> & _ & ->). lia.
  - destruct (step_not_checking _ Hc) as (_ & _ & -> & _ & ->).
    destruct (training (run d w k)) as [it|] eqn:Ht; [|lia].
    apply training_count in Ht. lia.
Qed.

(** X7.  Early stopping looks at most twice as far as the best model: at
    every point of a run [patience] is at most [max(10000, 2 * best_iter)],
    so the number of training steps made is at most
    [max(10000, 2 * best_iter) + 1]. *)
Theorem stops_within_twice_best_iter (d : datasets3) (w : W) (k : nat) :
  patience (run d w k) <= Z.max 10000 (2 * best_iter (run d w k)) /\
  train_calls (run d w k) <= Z.max 10000 (2 * best_iter (run d w k)) + 1.
Proof.
  destruct (patience_best_iter d w k) as (_ & H).
  pose proof (Calls_patience _ (Calls_run d w k)). lia.
Qed.

(** *** How many checks and announcements *)

Lemma div_succ (c v : Z) :
  0 <= c -> 1 <= v ->
  (c + 1) / v = c / v + (if (c + 1) mod v =? 0 then 1 else 0).
Proof.
  intros Hc Hv.
  pose proof (Z.div_mod c v ltac:(lia)) as H1.
  pose proof (Z.mod_pos_bound c v ltac:(lia)) as H2.
  destruct (Z.eq_dec (c mod v + 1) v) as [E | E].
  - assert (Hq : (c + 1) / v = c / v + 1)
      by (symmetry; apply (Z.div_unique (c + 1) v (c / v + 1) 0); lia).
    assert (Hr : (c + 1) mod v = 0)
      by (symmetry; apply (Z.mod_unique (c + 1) v (c / v + 1) 0); lia).
    rewrite Hq, Hr. reflexivity.
  - assert (Hq : (c + 1) / v = c / v)
      by (symmetry; apply (Z.div_unique (c + 1) v (c / v) (c mod v + 1)); lia).
    assert (Hr : (c + 1) mod v = c mod v + 1)
      by (symmetry; apply (Z.mod_unique (c + 1) v (c / v) (c mod v + 1)); lia).
    rewrite Hq, Hr. replace (c mod v + 1 =? 0) with false by lia. lia.
Qed.

(** X8.  With at least one complete training minibatch, the number of
    validation checks made is the number of training steps made, divided by
    [validation_frequency] and rounded down. *)
Theorem validations_count (d : datasets3) (w : W) (k : nat) :
  1 <= n_batches (train_set d) ->
  validations (run d w k) =
  train_calls (run d w k) / validation_frequency (run d w k).
Proof.
  intros Hn.
  assert (Hv : forall j, 1 <= validation_frequency (run d w j)).
  { intros j. destruct (Inv_run d w j) as (_ & Ht & _ & _ & -> & _).
    rewrite Ht. lia. }
  induction k as [|k IH]; [symmetry; apply Z.div_0_l; specialize (Hv 0%nat); lia|].
  destruct (step_frame (run d w k)) as (_ & _ & _ & _ & Hf).
  rewrite run_S, step_validations, step_train_calls, Hf, IH.
  unfold checking.
  destruct (training (run d w k)) as [it|] eqn:Ht; cbn [is_some].
  - apply training_count in Ht. subst it.
    replace (validation_frequency (run d w k) =? 0) with false
      by (specialize (Hv k); lia).
    cbn [negb andb].
    rewrite div_succ by (try apply train_calls_nonneg; apply Hv).
    destruct (_ =? 0); reflexivity.
  - rewrite !Z.add_0_r. reflexivity.
Qed.

Lemma filter_range_succ (f : Z -> bool) (n : Z) :
  0 <= n ->
  filter f (Py.range (n + 1)) =
  filter f (Py.range n) ++ (if f n then [n] else []).
Proof.
  intros Hn. rewrite range_succ, filter_app by exact Hn. cbn [filter].
  destruct (f n); reflexivity.
Qed.

(** X9.  ['training @ iter = %i'] is printed for exactly the iterations
    divisible by 100, in order: the iterations announced are the multiples
    of 100 below the number of training steps made. *)
Theorem training_announced_every_100 (d : datasets3) (w : W) (k : nat) :
  training_prints (run d w k) =
  filter (fun j => j mod 100 =? 0) (Py.range (train_calls (run d w k))).
Proof.
  induction k as [|k IH]; [reflexivity|].
  unfold training_prints in *.
  rewrite run_S, step_announced, step_train_calls, rev_app_distr, IH.
  destruct (training (run d w k)) as [it|] eqn:Ht; cbn [is_some].
  - apply training_count in Ht. subst it.
    rewrite filter_range_succ by apply train_calls_nonneg.
    f_equal. destruct (_ =? 0); reflexivity.
  - cbn [rev]. rewrite app_nil_r, Z.add_0_r. reflexivity.
Qed.

(** *** The summary *)

Lemma step_summary (s : state) :
  halted s = false ->
  filter is_summary (trace s) = [] ->
  match pc (step s) with
  | Finished =>
      trace (step s) =
        Print_time
        :: Print_best (fmul (best_validation_loss (step s)) (float_lit 100))
                      (best_iter (step s) + 1)
                      (fmul (test_score (step s)) (float_lit 100))
        :: Print_complete :: trace s
  | _ => filter is_summary (trace (step s)) = []
  end.
Proof.
  unfold halted. intros Hh H. unfold step.
  destruct (pc s) as [|i| |e] eqn:Hpc; try discriminate;
    step_cases; cbn [filter is_summary]; auto.
Qed.

(** X10.  The summary is printed once, last, and reports the final values:
    when the loop has been left, the trace is ['Optimization complete.'], the
    line with [best_validation_loss * 100], [best_iter + 1] and
    [test_score * 100], and the running time, on top of a trace without any
    of the three; before that none of them has been printed. *)
Theorem summary_printed_last (d : datasets3) (w : W) (k : nat) :
  match pc (run d w k) with
  | Finished =>
      exists tr,
        trace (run d w k) =
          Print_time
          :: Print_best
               (fmul (best_validation_loss (run d w k)) (float_lit 100))
               (best_iter (run d w k) + 1)
               (fmul (test_score (run d w k)) (float_lit 100))
          :: Print_complete :: tr /\
        filter is_summary tr = []
  | _ => filter is_summary (trace (run d w k)) = []
  end.
Proof.
  induction k as [|k IH].
  - unfold run, init; cbn [steps]; simpl_state.
    destruct (batch_size =? 0); reflexivity.
  - rewrite run_S.
    destruct (pc (run d w k)) eqn:Hpc.
    + assert (Hh : halted (run d w k) = false)
        by (unfold halted; rewrite Hpc; reflexivity).
      pose proof (step_summary _ Hh IH) as H.
      destruct (pc (step (run d w k))); auto.
      eexists. split; [exact H | exact IH].
    + assert (Hh : halted (run d w k) = false)
        by (unfold halted; rewrite Hpc; reflexivity).
      pose proof (step_summary _ Hh IH) as H.
      destruct (pc (step (run d w k))); auto.
      eexists. split; [exact H | exact IH].
    + rewrite step_halted by (unfold halted; rewrite Hpc; reflexivity).
      rewrite Hpc. exact IH.
    + rewrite step_halted by (unfold halted; rewrite Hpc; reflexivity).
      rewrite Hpc. exact IH.
Qed.

(** *** The progress lines *)

Lemma line_ok_epoch (n e e' v : Z) (ev : event) :
  e <= e' -> line_ok n e v ev -> line_ok n e' v ev.
Proof.
  intros He. destruct ev; cbn [line_ok]; auto; intros (? & ? & ? & ?);
    repeat split; auto; lia.
Qed.

Lemma step_line_ok (d : datasets3) (s : state) :
  Inv d s ->
  Forall (line_ok (n_train_batches s) (epoch s) (validation_frequency s))
         (trace s) ->
  Forall (line_ok (n_train_batches (step s)) (epoch (step s))
                  (validation_frequency (step s)))
         (trace (step s)).
Proof.
  intros (_ & _ & _ & _ & _ & _ & _ & Hc) H.
  destruct (step_frame s) as (_ & -> & _ & _ & ->).
  unfold step. destruct (pc s) as [|i| |e] eqn:Hpc.
  - step_cases.
    + eapply Forall_impl; [|exact H]. intros ev. apply line_ok_epoch. lia.
    + repeat (apply Forall_cons; [exact I|]). exact H.
  - destruct (i <? n_train_batches s) eqn:Hi; [|exact H].
    unfold body. rewrite train_eq. simpl_state.
    destruct (validation_frequency s =? 0); [step_cases;
      repeat (apply Forall_cons; [exact I|]); exact H|].
    destruct ((iter_of s i + 1) mod validation_frequency s =? 0) eqn:Hm.
    + assert (Hok : 1 <= i + 1 <= n_train_batches s /\
                    1 <= epoch s <= epoch s /\
                    ((epoch s - 1) * n_train_batches s + (i + 1))
                      mod validation_frequency s = 0).
      { repeat split; try lia.
        replace ((epoch s - 1) * n_train_batches s + (i + 1))
          with (iter_of s i + 1) by (unfold iter_of; lia).
        lia. }
      rewrite validate_eq. simpl_state.
      repeat (case_if; simpl_state);
        repeat (apply Forall_cons;
                [first [exact I | split; [reflexivity | exact Hok]]|]);
        exact H.
    + step_cases; repeat (apply Forall_cons; [exact I|]); exact H.
  - exact H.
  - exact H.
Qed.

(** X11.  Every progress line ['epoch e, minibatch m/n, ...'] printed for a
    validation check or a test evaluation names the number of training
    minibatches as [n], a minibatch [1 <= m <= n] and an epoch already
    entered, and belongs to an iteration [(e - 1) * n + m - 1] at which a
    check is due. *)
Theorem progress_lines_well_formed (d : datasets3) (w : W) (k : nat) :
  Forall (line_ok (n_batches (train_set d)) (epoch (run d w k))
                  (validation_frequency (run d w k)))
         (trace (run d w k)).
Proof.
  destruct (Inv_run d w k) as (_ & <- & _).
  induction k as [|k IH]; [constructor|].
  rewrite run_S. apply (step_line_ok d); [apply Inv_run | exact IH].
Qed.

(** *** When the test set is evaluated *)

Lemma step_tests (s : state) :
  tests (step s) =
  tests s +
  (if flt (best_validation_loss (step s)) (best_validation_loss s)
   then 1 else 0).
Proof.
  unfold tests, step.
  destruct (pc s) as [|i| |e];
    step_cases; cbn [filter is_test length];
    rewrite ?flt_irrefl in *; try discriminate; try congruence; lia.
Qed.

Lemma count_improves_S (d : datasets3) (w : W) (k : nat) :
  Z.of_nat (length (filter (improves d w) (seq 0 (S k)))) =
  Z.of_nat (length (filter (improves d w) (seq 0 k))) +
  (if improves d w k then 1 else 0).
Proof.
  rewrite seq_S, filter_app, length_app. cbn [filter Nat.add].
  destruct (improves d w k); cbn [length]; lia.
Qed.

(** X12.  The test set is evaluated exactly when a validation check strictly
    lowers [best_validation_loss]: the number of test evaluations is the
    number of steps that improve, and never exceeds the number of
    validation checks. *)
Theorem test_only_on_improvement (d : datasets3) (w : W) (k : nat) :
  tests (run d w k) =
    Z.of_nat (length (filter (improves d w) (seq 0 k))) /\
  tests (run d w k) <= validations (run d w k).
Proof.
  induction k as [|k (IH1 & IH2)]; [split; [reflexivity | cbn; lia]|].
  rewrite count_improves_S, run_S, step_tests, step_validations, IH1.
  fold (improves d w k). rewrite <- run_S. split; [reflexivity|].
  rewrite <- IH1.
  pose proof (step_improves (run d w k)) as H.
  unfold improves. rewrite run_S.
  destruct (flt _ _); [|destruct (is_some _); lia].
  destruct H as (it & -> & _). cbn [is_some]. lia.
Qed.

(** *** A validation set without a complete minibatch *)

Lemma no_validation_batches (d : datasets3) (s : state) :
  Inv d s -> Py.shape0 (set_x (valid_set d)) < batch_size ->
  validation_losses s = [].
Proof.
  intros (_ & _ & Hv & _) H. unfold validation_losses. rewrite Hv.
  unfold n_batches. rewrite Z.div_small; [reflexivity|].
  unfold Py.shape0 in *. lia.
Qed.

(** X13.  When the validation set has fewer rows than [batch_size], every
    validation loss is [np.mean] of the empty list; as that (NaN) is not
    below [np.inf], no check ever records a best model: [patience] stays
    10000, at most 10001 training steps are made, and [best_validation_loss],
    [best_iter] and [test_score] keep their initial values. *)
Theorem empty_validation_set_never_improves (d : datasets3) (w : W) (k : nat) :
  Py.shape0 (set_x (valid_set d)) < batch_size ->
  flt (np_mean []) np_inf = false ->
  best_validation_loss (run d w k) = np_inf /\
  best_iter (run d w k) = 0 /\
  test_score (run d w k) = float_lit 0 /\
  patience (run d w k) = 10000 /\
  train_calls (run d w k) <= 10001.
Proof.
  intros He Hn.
  assert (H : best_validation_loss (run d w k) = np_inf /\
              best_iter (run d w k) = 0 /\
              test_score (run d w k) = float_lit 0 /\
              patience (run d w k) = 10000).
  { induction k as [|k IH]; [repeat split|].
    destruct IH as (Hb & Hi & Hs & Hp). rewrite run_S.
    destruct (checking (run d w k)) as [it|] eqn:Hc.
    - destruct (step_checking _ it Hc) as (_ & H).
      rewrite <- run_S in H.
      rewrite (no_validation_batches d _ (Inv_run d w (S k)) He), Hb, Hn in H.
      rewrite run_S in H. destruct H as (-> & -> & -> & ->). auto.
    - destruct (step_not_checking _ Hc) as (_ & -> & -> & -> & ->). auto. }
  destruct H as (Hb & Hi & Hs & Hp). repeat split; auto.
  pose proof (Calls_patience _ (Calls_run d w k)). lia.
Qed.

(** *** What [train_fn] is called on, and when the loop is broken *)

Lemma minibatch_full {A : Type} (i : Z) (a : list A) :
  0 <= i < Z.of_nat (length a) / batch_size ->
  length (minibatch i a) = Z.to_nat batch_size.
Proof.
  intros Hi.
  assert (Hb : 1 <= batch_size).
  { destruct (Z_lt_ge_dec batch_size 1) as [H | H]; [exfalso | lia].
    destruct (Z.eq_dec batch_size 0) as [E | E].
    - rewrite E, Z.div_0_r in Hi. lia.
    - pose proof (Z.div_mod (Z.of_nat (length a)) batch_size E).
      pose proof (Z.mod_neg_bound (Z.of_nat (length a)) batch_size ltac:(lia)).
      nia. }
  rewrite <- (Z2Nat.id i) by lia. rewrite minibatch_chunk by exact Hb.
  apply chunk_length.
  rewrite <- (Z2Nat.id batch_size) in Hi at 1 by lia.
  rewrite <- Nat2Z.inj_div in Hi. lia.
Qed.

(** X15.  [train_fn] only ever sees full minibatches: every input array
    passed to it has exactly [batch_size] rows, so the rows after the last
    complete minibatch of the training set are never trained on. *)
Theorem train_fn_gets_full_minibatches (d : datasets3) (w : W) (k : nat) :
  Forall (fun b => length (fst b) = Z.to_nat batch_size)
         (train_batches (run d w k)).
Proof.
  unfold train_batches. apply Forall_rev.
  induction k as [|k IH]; [constructor|].
  rewrite run_S, step_call_batches. apply Forall_app. split; [|exact IH].
  destruct (Inv_run d w k) as (Hd & Ht & _ & _ & _ & _ & _ & Hc).
  destruct (pc (run d w k)) as [|i| |e]; try constructor.
  destruct (i <? n_train_batches (run d w k)) eqn:Hi; constructor;
    [|constructor].
  cbn [fst]. apply minibatch_full. rewrite Hd.
  unfold n_batches, Py.shape0 in Ht. lia.
Qed.

(** The count of training steps against [patience], by [done_looping]. *)
Lemma step_stopped (d : datasets3) (s : state) :
  Inv d s -> Calls s ->
  (if done_looping s then train_calls s = patience s + 1
   else train_calls s <= patience s) ->
  if done_looping (step s) then train_calls (step s) = patience (step s) + 1
  else train_calls (step s) <= patience (step s).
Proof.
  intros HI HC H.
  pose proof (step_train_calls s) as Hn.
  pose proof (step_patience_le s) as Hle.
  destruct HI as (_ & Ht & _ & _ & Hf & _ & _ & Hc).
  rewrite Hn. clear Hn. revert Hle HC H.
  unfold Calls, training, is_some. cbn zeta.
  set (c := train_calls s). clearbody c.
  unfold step, patience_increase. destruct (pc s) as [|i| |e] eqn:Hpc.
  - destruct (done_looping s) eqn:Hd; step_cases; intros;
      rewrite ?Hd; try discriminate; try lia.
  - destruct (i <? n_train_batches s) eqn:Hi.
    + rewrite Z.max_r by lia.
      unfold body, iter_of. rewrite train_eq. simpl_state.
      intros Hle (H1 & H2 & H3 & H4). rewrite H4. intros _.
      revert Hle.
      repeat (first [rewrite validate_eq | case_if]; simpl_state);
        intros; rewrite ?H4; try lia.
    + simpl_state. intros _ (_ & _ & _ & ->) H. lia.
  - intros _ _ H. rewrite Z.add_0_r. exact H.
  - intros _ _ H. rewrite Z.add_0_r. exact H.
Qed.

(** X16.  Early stopping fires exactly when [iter] reaches [patience]: at
    every point of a run, if [done_looping] is set then exactly
    [patience + 1] training steps have been made, and otherwise at most
    [patience]. *)
Theorem stops_exactly_at_patience (d : datasets3) (w : W) (k : nat) :
  if done_looping (run d w k)
  then train_calls (run d w k) = patience (run d w k) + 1
  else train_calls (run d w k) <= patience (run d w k).
Proof.
  induction k as [|k IH];
    [unfold run, init, train_calls, initial_patience; cbn [steps];
     simpl_state; cbn [filter length]; lia|].
  rewrite run_S.
  apply (step_stopped d); [apply Inv_run | apply Calls_run | exact IH].
Qed.

End EvaluateModel.

Arguments mkDataset {X Y} set_x set_y.
Arguments mkDatasets {X Y} train_set valid_set test_set.
Arguments train_set {X Y} d.
Arguments valid_set {X Y} d.
Arguments test_set {X Y} d.
Arguments set_x {X Y} d.
Arguments set_y {X Y} d.
Arguments pc {NF W X Y} s.
Arguments net {NF W X Y} s.
Arguments trace {NF W X Y} s.
Arguments epoch {NF W X Y} s.
Arguments iter {NF W X Y} s.
Arguments patience {NF W X Y} s.
Arguments done_looping {NF W X Y} s.
Arguments best_validation_loss {NF W X Y} s.
Arguments best_iter {NF W X Y} s.
Arguments test_score {NF W X Y} s.
Arguments this_validation_loss {NF W X Y} s.
Arguments n_train_batches {NF W X Y} s.
Arguments validation_frequency {NF W X Y} s.
Arguments run {NF W X Y} train_fn valid_fn n_epochs batch_size d w k.
Arguments evaluate_model {NF W X Y} train_fn valid_fn n_epochs batch_size fuel d w.
Arguments training {NF W X Y} s.
Arguments checking {NF W X Y} s.
Arguments improves {NF W X Y} train_fn valid_fn n_epochs batch_size d w j.
Arguments losses {NF W X Y} valid_fn batch_size w a.
Arguments train_calls {NF W X Y} s.
Arguments validations_in_epoch {NF W X Y} e s.
Arguments validates_once_per_epoch {NF W X Y} s.
Arguments best_by_test_error {NF W X Y} train_fn valid_fn n_epochs batch_size d w k.
Arguments best_by_validation_error {NF W X Y} train_fn valid_fn n_epochs batch_size d w k.
Arguments error_on {NF W X Y} valid_fn batch_size w d.
Arguments n_batches {X Y} batch_size d.
Arguments minibatches {X Y} batch_size d.
Arguments agree3 {X Y} batch_size d d'.
Arguments with_datasets {NF W X Y} s d.
Arguments epoch_completed {NF W X Y} s e.
Arguments validations {NF W X Y} s.
Arguments init {NF W X Y} batch_size d w.

(** ** The two compiled functions in the loop *)

(** C6.  Cell 3 compiles exactly two graphs, the training step [train_fn]
    and the validation step [valid_fn]; in [evaluate_model] the validation
    error of every check and the test error of every new best model are both
    computed by applying that one [valid_fn], to the minibatches of the
    validation set and of the test set; so that on equal validation and test
    sets the reported test score is the best validation loss. *)
Theorem validation_and_test_share_valid_fn
    {NF : NumpyFloat} (W X Y : Type)
    (loss : W -> list X -> list Y -> float)
    (updates : W -> list X -> list Y -> W)
    (test_err : W -> list X -> list Y -> float) :
  let train_fn := Cell3.train_fn loss updates test_err in
  let valid_fn := Cell3.valid_fn loss updates test_err in
  Cell3.compiled_graphs loss updates test_err = 2%nat /\
  (forall w x y, train_fn w x y = (updates w x y, loss w x y)) /\
  (forall w x y, valid_fn w x y = test_err w x y) /\
  forall n_epochs batch_size d w k,
    let r := run train_fn valid_fn n_epochs batch_size d w in
    (forall it, checking (r k) = Some it ->
       this_validation_loss (r (S k)) =
         Some (np_mean (losses valid_fn batch_size (net (r (S k))) (valid_set d))) /\
       (improves train_fn valid_fn n_epochs batch_size d w k = true ->
        test_score (r (S k)) =
          np_mean (losses valid_fn batch_size (net (r (S k))) (test_set d)))) /\
    (valid_set d = test_set d ->
     test_score (r k) = best_validation_loss (r k) \/
     best_validation_loss (r k) = np_inf /\ test_score (r k) = float_lit 0).
Proof.
  intros train_fn valid_fn.
  split; [reflexivity | split; [reflexivity | split; [reflexivity|]]].
  intros n_epochs batch_size d w k r. split.
  - intros it. apply check_uses_valid_fn.
  - apply same_split_same_score.
Qed.


(** ** The cost returned by [train_fn] *)

Section TrainingCost.

Context {NF : NumpyFloat}.
Variables W X Y : Type.
Variables f g : W -> list X -> list Y -> W * float.
Variable valid_fn : W -> list X -> list Y -> float.
Variables n_epochs batch_size : Z.

Hypothesis same_updates : forall w x y, fst (f w x y) = fst (g w x y).

Lemma step_same_updates (s : state W X Y) :
  step W X Y f valid_fn n_epochs batch_size s =
  step W X Y g valid_fn n_epochs batch_size s.
Proof.
  unfold step. destruct (pc s); try reflexivity.
  destruct (_ <? _); [|reflexivity].
  unfold body. rewrite !train_eq, same_updates. reflexivity.
Qed.

(** X14.  [cost_ij] is never used: two training functions that update the
    parameters alike, whatever losses they return, give the same run, state
    by state, and the same result. *)
Theorem training_cost_ignored (d : datasets3 X Y) (w : W) :
  (forall k, run f valid_fn n_epochs batch_size d w k =
             run g valid_fn n_epochs batch_size d w k) /\
  (forall fuel, evaluate_model f valid_fn n_epochs batch_size fuel d w =
                evaluate_model g valid_fn n_epochs batch_size fuel d w).
Proof.
  split.
  - induction k as [|k IH]; [reflexivity|].
    rewrite !run_S, IH. apply step_same_updates.
  - intros fuel. unfold evaluate_model.
    generalize (init batch_size d w). induction fuel as [|fuel IH]; intros s.
    + reflexivity.
    + cbn [exec]. rewrite step_same_updates, IH. reflexivity.
Qed.

End TrainingCost.

End LeNet.

(** ** Running the loop on concrete numbers *)

Module Demo.

Import XFloat LeNet.

Lemma Qltb_lt (p q : Q) : Qltb p q = true <-> (p < q)%Q.
Proof.
  unfold Qltb. rewrite Qlt_alt.
  destruct (p ?= q)%Q; split; congruence.
Qed.

Lemma Qltb_le (p q : Q) : Qltb p q = false <-> (q <= p)%Q.
Proof.
  split.
  - intros H. apply Qnot_lt_le. intros Hlt. apply Qltb_lt in Hlt. congruence.
  - intros H. destruct (Qltb p q) eqn:E; [|reflexivity].
    apply Qltb_lt in E. exfalso. exact (Qle_not_lt _ _ H E).
Qed.

Lemma xlt_irrefl (a : xfloat) : xlt a a = false.
Proof.
  destruct a; try reflexivity. cbn. apply Qltb_le, Qle_refl.
Qed.

Lemma xlt_trans (a b c : xfloat) :
  xlt a b = true -> xlt b c = true -> xlt a c = true.
Proof.
  destruct a, b, c; cbn; try discriminate; try reflexivity.
  rewrite !Qltb_lt. apply Qlt_trans.
Qed.

Lemma xadd_nonneg (a b : xfloat) :
  xlt a (Fin 0) = false -> xlt b (Fin 0) = false ->
  xlt (xadd a b) (Fin 0) = false.
Proof.
  destruct a, b; cbn; try discriminate; try reflexivity.
  rewrite !Qltb_le. intros; lra.
Qed.

Lemma xsum_nonneg (l : list xfloat) : forall acc,
  xlt acc (Fin 0) = false ->
  Forall (fun x => xlt x (Fin 0) = false) l ->
  xlt (fold_left xadd l acc) (Fin 0) = false.
Proof.
  induction l as [|x l IH]; intros acc Ha Hl; [exact Ha|].
  inversion Hl; subst. cbn [fold_left]. apply IH; [|assumption].
  apply xadd_nonneg; assumption.
Qed.

Lemma xdiv_nonneg (a : xfloat) (n : positive) :
  xlt a (Fin 0) = false -> xlt (xdiv a n) (Fin 0) = false.
Proof.
  destruct a; cbn; try discriminate; try reflexivity.
  rewrite !Qltb_le. intros H.
  apply Qle_shift_div_l; [reflexivity | lra].
Qed.

Lemma xmean_nonneg (l : list xfloat) :
  Forall (fun x => xlt x (Fin 0) = false) l ->
  xlt (xmean l) (Fin 0) = false.
Proof.
  intros H. destruct l as [|x l]; [reflexivity|].
  unfold xmean. apply xdiv_nonneg, xsum_nonneg; [reflexivity | exact H].
Qed.

Lemma xmul_threshold (a b : xfloat) :
  xlt b (Fin 0) = false ->
  xlt a (xmul b (Fin (995 # 1000))) = true -> xlt a b = true.
Proof.
  destruct b as [q| | |]; cbn.
  - rewrite Qltb_le. intros Hq.
    destruct a as [p| | |]; cbn; try discriminate; try reflexivity.
    rewrite !Qltb_lt. intros; lra.
  - intros _. exact (fun H => H).
  - discriminate.
  - intros _. destruct a; discriminate.
Qed.

#[export] Instance xfloat_numpy : NumpyFloat := {|
  float := xfloat;
  np_inf := PInf;
  float_lit := Fin;
  fmul := xmul;
  flt := xlt;
  np_mean := xmean;
  flt_irrefl := xlt_irrefl;
  flt_trans := xlt_trans;
  np_inf_nonneg := eq_refl;
  np_mean_nonneg := xmean_nonneg;
  fmul_threshold := xmul_threshold
|}.


(** The network is identified with the number of training steps it has
    taken; rows and labels are integers. *)
Definition count_steps (w : Z) (x : list Z) (y : list Z) : Z * float :=
  (w + 1, Fin 0).

(** An error rate that falls on the rows marked 0 and rises on the others
    as training goes on. *)
Definition diverging (w : Z) (x : list Z) (y : list Z) : float :=
  match x with
  | 0 :: _ => if w =? 1 then Fin (1 # 2) else Fin (2 # 5)
  | _ => if w =? 1 then Fin (1 # 10) else Fin (9 # 10)
  end.

(** An error rate that never changes. *)
Definition flat (w : Z) (x : list Z) (y : list Z) : float := Fin (1 # 2).

(** One training row, one validation row (marked 0), one test row. *)
Definition tiny : datasets3 Z Z :=
  mkDatasets (mkDataset [7] [3]) (mkDataset [0] [3]) (mkDataset [1] [3]).

(** Two training rows. *)
Definition pair : datasets3 Z Z :=
  mkDatasets (mkDataset [7; 8] [3; 4]) (mkDataset [0] [3]) (mkDataset [1] [3]).

(** Three training rows, and the same with another third row. *)
Definition pair_more : datasets3 Z Z :=
  mkDatasets (mkDataset [7; 8; 9] [3; 4; 5]) (mkDataset [0; 9] [3; 5])
             (mkDataset [1; 9] [3; 5]).

Definition pair_odd : datasets3 Z Z :=
  mkDatasets (mkDataset [7; 8; 6] [3; 4; 2]) (mkDataset [0; 9] [3; 5])
             (mkDataset [1; 9] [3; 5]).

(** The test set is the validation set. *)
Definition twin : datasets3 Z Z :=
  mkDatasets (mkDataset [7] [3]) (mkDataset [0] [3]) (mkDataset [0] [3]).


(** C1, as stated, fails: on [tiny] with the error rate [diverging], two
    epochs record the second model as best (validation error 2/5 against
    1/2), with test score 9/10, although the first model, evaluated at the
    first check, has test error 1/10. *)
Lemma best_is_not_by_test_error :
  evaluate_model count_steps diverging 2 1 7 tiny 0 =
    Some (run count_steps diverging 2 1 tiny 0 7) /\
  pc (run count_steps diverging 2 1 tiny 0 7) = Finished /\
  best_iter (run count_steps diverging 2 1 tiny 0 7) = 1 /\
  test_score (run count_steps diverging 2 1 tiny 0 7) = Fin (9 # 10) /\
  ~ best_by_test_error count_steps diverging 2 1 tiny 0 7.
Proof.
  repeat (split; [vm_compute; reflexivity|]).
  intros H.
  assert (H1 : checking (run count_steps diverging 2 1 tiny 0 1) <> None)
    by (vm_compute; discriminate).
  specialize (H 1%nat ltac:(lia) H1). vm_compute in H. discriminate.
Qed.

(** C3, as stated, fails: on [pair] (two minibatches per epoch) with the
    error rate [flat], patience stays 10000, the loop is left after
    iteration 10000, the first minibatch of epoch 5001, and that epoch has
    trained without a validation check. *)
Lemma last_epoch_without_validation :
  let s := run count_steps flat 6000 1 pair 0 (Z.to_nat 20003) in
  pc s = Finished /\ n_train_batches s = 2 /\
  epoch s = 5001 /\ iter s = Some 10000 /\
  validations_in_epoch 5001 s = 0 /\
  ~ validates_once_per_epoch s.
Proof.
  assert (H : let s := run count_steps flat 6000 1 pair 0 (Z.to_nat 20003) in
              pc s = Finished /\ n_train_batches s = 2 /\
              epoch s = 5001 /\ iter s = Some 10000 /\
              validations_in_epoch 5001 s = 0)
    by (vm_compute; repeat split; reflexivity).
  cbn zeta in *. destruct H as (H1 & H2 & H3 & H4 & H5).
  repeat (split; [assumption|]).
  intros H. specialize (H 5001). rewrite H3, H5 in H.
  specialize (H ltac:(lia)). discriminate.
Qed.

(** C2 at two epochs over [tiny] with batches of one row. *)
Lemma evaluate_model_terminates_witness :
  0 <= 2 /\ 1 <= 1 /\
  exists fuel s,
    evaluate_model count_steps diverging 2 1 fuel tiny 0 = Some s /\
    pc s = Finished.
Proof.
  split; [lia | split; [lia|]].
  destruct (evaluate_model_terminates Z Z Z count_steps diverging 2 1 tiny 0
              ltac:(lia) ltac:(lia)) as ((fuel & s & H1 & H2 & _) & _).
  exists fuel, s. split; [apply H1; lia | exact H2].
Defined.

(** C4 with the error rate [flat], which is never below zero. *)
Lemma patience_monotone_witness :
  (forall w x y, flt (flat w x y) (float_lit 0) = false) /\
  patience (run count_steps flat 2 1 tiny 0 2) =
    if flt (np_mean (validation_losses Z Z Z flat 1
                       (run count_steps flat 2 1 tiny 0 2)))
           (fmul (best_validation_loss (run count_steps flat 2 1 tiny 0 1))
                 (improvement_threshold))
    then Z.max (patience (run count_steps flat 2 1 tiny 0 1)) (0 * 2)
    else patience (run count_steps flat 2 1 tiny 0 1).
Proof.
  split; [intros w x y; reflexivity|].
  destruct (patience_monotone Z Z Z count_steps flat 2 1 tiny 0)
    as (_ & _ & _ & H).
  exact (H (fun w x y => eq_refl) 1%nat).
Defined.

(** C5 at the first validation check of a run over [tiny]. *)
Lemma validation_loss_is_mean_witness :
  checking (run count_steps diverging 2 1 tiny 0 1) = Some 0 /\
  this_validation_loss (run count_steps diverging 2 1 tiny 0 2) =
    Some (error_on diverging 1 (net (run count_steps diverging 2 1 tiny 0 2))
            (valid_set tiny)).
Proof.
  split; [vm_compute; reflexivity|].
  assert (Hc : checking (run count_steps diverging 2 1 tiny 0 1) = Some 0)
    by (vm_compute; reflexivity).
  destruct (validation_loss_is_mean Z Z Z count_steps diverging 2 1 tiny 0 1 0
              Hc) as (H & _).
  exact H.
Defined.

(** C7 at the end of two epochs over [tiny]. *)
Lemma train_calls_bounded_witness :
  0 <= 2 /\ 1 <= 1 /\
  train_calls (run count_steps diverging 2 1 tiny 0 7) <=
    Z.min (2 * n_train_batches (run count_steps diverging 2 1 tiny 0 7))
          (patience (run count_steps diverging 2 1 tiny 0 7) + 1).
Proof.
  split; [lia | split; [lia|]].
  destruct (train_calls_bounded Z Z Z count_steps diverging 2 1 tiny 0 7
              ltac:(lia) ltac:(lia)) as (H & _).
  exact H.
Defined.

(** C3 (amended) for [pair], whose epochs have two minibatches. *)
Lemma validation_schedule_witness :
  1 <= n_batches 1 (train_set pair) <= 5000 /\
  forall e,
    validations_in_epoch e (run count_steps flat 3 1 pair 0 9) =
    if epoch_completed (run count_steps flat 3 1 pair 0 9) e then 1 else 0.
Proof.
  assert (Hn : 1 <= n_batches 1 (train_set pair) <= 5000)
    by (vm_compute; split; discriminate).
  split; [exact Hn|].
  destruct (validation_schedule Z Z Z count_steps flat 3 1 pair 0 9)
    as (_ & _ & _ & H).
  destruct (H Hn) as (_ & H'). exact H'.
Defined.

(** C8: with batches of two rows [pair_more] and [pair_odd] differ only in
    a row that is never read, and with batches of four rows [pair_more] has
    no complete training minibatch. *)
Lemma only_complete_minibatches_used_witness :
  agree3 2 pair_more pair_odd /\
  Py.shape0 (set_x (train_set pair_more)) < 4 /\
  (forall k, run count_steps flat 3 2 pair_odd 0 k =
             with_datasets (run count_steps flat 3 2 pair_more 0 k) pair_odd) /\
  exists fuel s,
    evaluate_model count_steps flat 3 4 fuel pair_more 0 = Some s /\
    pc s = Finished /\ train_calls s = 0 /\
    best_validation_loss s = np_inf /\ test_score s = float_lit 0.
Proof.
  assert (Ha : agree3 2 pair_more pair_odd)
    by (vm_compute; repeat split; reflexivity).
  assert (Hs : Py.shape0 (set_x (train_set pair_more)) < 4)
    by (vm_compute; reflexivity).
  split; [exact Ha | split; [exact Hs | split]].
  - destruct (only_complete_minibatches_used Z Z Z count_steps flat 3 2
                pair_more pair_odd 0) as (H & _).
    exact (H Ha).
  - destruct (only_complete_minibatches_used Z Z Z count_steps flat 3 4
                pair_more pair_more 0) as (_ & H).
    destruct (H Hs) as (_ & _ & _ & H'). exact H'.
Defined.

(** C6 for the functions cell 3 compiles from [flat], a counter of steps
    and [diverging]. *)
Lemma validation_and_test_share_valid_fn_witness :
  let train := Cell3.train_fn flat (fun w _ _ => w + 1) diverging in
  let valid := Cell3.valid_fn flat (fun w _ _ => w + 1) diverging in
  checking (run train valid 2 1 tiny 0 1) = Some 0 /\
  valid_set twin = test_set twin /\
  this_validation_loss (run train valid 2 1 tiny 0 2) =
    Some (np_mean (losses valid 1 (net (run train valid 2 1 tiny 0 2))
                     (valid_set tiny))) /\
  (test_score (run train valid 2 1 twin 0 7) =
     best_validation_loss (run train valid 2 1 twin 0 7) \/
   best_validation_loss (run train valid 2 1 twin 0 7) = np_inf /\
   test_score (run train valid 2 1 twin 0 7) = float_lit 0).
Proof.
  intros train valid.
  destruct (validation_and_test_share_valid_fn Z Z Z
              flat (fun w _ _ => w + 1) diverging)
    as (_ & _ & _ & H).
  assert (Hc : checking (run train valid 2 1 tiny 0 1) = Some 0)
    by (vm_compute; reflexivity).
  split; [exact Hc | split; [reflexivity | split]].
  - destruct (H 2 1 tiny 0 1%nat) as (H1 & _).
    destruct (H1 0 Hc) as (H2 & _). exact H2.
  - destruct (H 2 1 twin 0 7%nat) as (_ & H1). exact (H1 eq_refl).
Defined.


(** *** The further properties at concrete inputs *)

(** A training function that differs from [count_steps] in the cost only. *)
Definition count_steps_costly (w : Z) (x : list Z) (y : list Z) : Z * float :=
  (w + 1, Fin 1).

(** No validation row at all. *)
Definition no_validation : datasets3 Z Z :=
  mkDatasets (mkDataset [7] [3]) (mkDataset [] []) (mkDataset [1] [3]).

(** X1 for [tiny] and five steps of fuel. *)
Lemma zero_batch_size_raises_witness :
  0 = 0 /\
  exists s, evaluate_model count_steps flat 2 0 5 tiny 0 = Some s /\
            pc s = Raised Py.ZeroDivisionError /\ trace s = [].
Proof.
  split; [reflexivity|].
  destruct (zero_batch_size_raises Z Z Z count_steps flat 2 0 tiny 0 5 eq_refl)
    as (s & H1 & H2 & H3 & _).
  exists s. auto.
Defined.

(** X2 for a negative [batch_size]. *)
Lemma nonzero_batch_size_returns_witness :
  -1 <> 0 /\
  exists fuel s,
    evaluate_model count_steps flat 2 (-1) fuel tiny 0 = Some s /\
    pc s = Finished.
Proof.
  assert (Hb : -1 <> 0) by discriminate.
  split; [exact Hb|].
  destruct (nonzero_batch_size_returns Z Z Z count_steps flat 2 (-1) tiny 0 Hb)
    as (_ & fuel & s & H1 & H2).
  exists fuel, s. split; [apply H1; lia | exact H2].
Defined.

(** X3 for a negative [batch_size]. *)
Lemma nothing_to_train_witness :
  (2 <= 0 \/ -1 < 0) /\
  net (run count_steps flat 2 (-1) tiny 0 5) = 0 /\
  train_calls (run count_steps flat 2 (-1) tiny 0 5) = 0.
Proof.
  assert (H : 2 <= 0 \/ -1 < 0) by (right; reflexivity).
  split; [exact H|].
  destruct (nothing_to_train Z Z Z count_steps flat 2 (-1) tiny 0 5 H)
    as (H1 & H2 & _).
  split; [exact H1 | exact H2].
Defined.

(** X8 for [pair], three epochs. *)
Lemma validations_count_witness :
  1 <= n_batches 1 (train_set pair) /\
  validations (run count_steps flat 3 1 pair 0 9) =
  train_calls (run count_steps flat 3 1 pair 0 9) /
  validation_frequency (run count_steps flat 3 1 pair 0 9).
Proof.
  assert (Hn : 1 <= n_batches 1 (train_set pair)) by (vm_compute; discriminate).
  split; [exact Hn|].
  exact (validations_count Z Z Z count_steps flat 3 1 pair 0 9 Hn).
Defined.

(** X13 for [no_validation], with NaN as the mean of no values. *)
Lemma empty_validation_set_never_improves_witness :
  Py.shape0 (set_x (valid_set no_validation)) < 1 /\
  flt (np_mean []) np_inf = false /\
  best_validation_loss (run count_steps flat 2 1 no_validation 0 7) = np_inf /\
  patience (run count_steps flat 2 1 no_validation 0 7) = 10000.
Proof.
  assert (He : Py.shape0 (set_x (valid_set no_validation)) < 1)
    by reflexivity.
  assert (Hn : flt (np_mean []) np_inf = false) by reflexivity.
  split; [exact He | split; [exact Hn|]].
  destruct (empty_validation_set_never_improves Z Z Z count_steps flat 2 1
              no_validation 0 7 He Hn) as (H1 & _ & _ & H2 & _).
  split; [exact H1 | exact H2].
Defined.

(** X14 for [count_steps] and [count_steps_costly]. *)
Lemma training_cost_ignored_witness :
  (forall w x y, fst (count_steps w x y) = fst (count_steps_costly w x y)) /\
  forall k, run count_steps diverging 2 1 tiny 0 k =
            run count_steps_costly diverging 2 1 tiny 0 k.
Proof.
  split; [intros w x y; reflexivity|].
  destruct (training_cost_ignored Z Z Z count_steps count_steps_costly
              diverging 2 1 (fun w x y => eq_refl) tiny 0) as (H & _).
  exact H.
Defined.

End Demo.
